(** * talk2yt: the transcript windower, the identifier extractor, the
      response normaliser and the request orchestrators

    A shallow embedding of the three service variants of the repository
    ([TalkToYT-backend/app.py], [backend/wsgi_app.py], [api/wsgi_app.py]).

    Python [str] values are sequences of code points; they are embedded as
    lists of [ascii], the code points 0..255.  Python [int]s are [Z]. *)

From Stdlib Require Import Ascii String DecimalString.
From Stdlib Require Import ZArith QArith Qround Lia Bool List.
Import ListNotations.

Local Open Scope Z_scope.

(** ** Python strings *)

Definition str := list ascii.

(** A literal of the source. *)
Definition lit (s : string) : str := list_ascii_of_string s.

Definition len (s : str) : Z := Z.of_nat (length s).

Module Py.

(** [s[i:j]] indices: a negative index counts from the end, and both ends are
    clamped to [0, len s]. *)
Definition norm_index (n i : Z) : Z :=
  if i <? 0 then Z.max 0 (i + n) else Z.min i n.

(** The slice [s[a:b]]. *)
Definition slice (s : str) (a b : Z) : str :=
  let a' := norm_index (len s) a in
  let b' := norm_index (len s) b in
  firstn (Z.to_nat (b' - a')) (skipn (Z.to_nat a') s).

Definition code (c : ascii) : N := N_of_ascii c.

Definition in_range (lo hi : N) (c : ascii) : bool :=
  ((lo <=? code c) && (code c <=? hi))%N.

(** [str.isspace] on the code points 0..255; the class [\s] of [re] on
    [str] patterns is the same set. *)
Definition is_space (c : ascii) : bool :=
  in_range 9 13 c || in_range 28 32 c || (code c =? 133)%N
  || (code c =? 160)%N.

Definition is_upper_ascii (c : ascii) : bool := in_range 65 90 c.
Definition is_lower_ascii (c : ascii) : bool := in_range 97 122 c.
Definition is_digit (c : ascii) : bool := in_range 48 57 c.

(** [str.lower] on one code point of 0..255: [A-Z] and the capital letters
    of Latin-1 (all of 192..222 but the multiplication sign 215). *)
Definition lower_char (c : ascii) : ascii :=
  if is_upper_ascii c || (in_range 192 222 c && negb (code c =? 215)%N)
  then ascii_of_N (code c + 32) else c.

Definition lower (s : str) : str := map lower_char s.

Fixpoint lstrip_by (drop : ascii -> bool) (s : str) : str :=
  match s with
  | c :: t => if drop c then lstrip_by drop t else s
  | [] => []
  end.

Definition rstrip_by (drop : ascii -> bool) (s : str) : str :=
  rev (lstrip_by drop (rev s)).

(** [s.strip()]. *)
Definition strip (s : str) : str := rstrip_by is_space (lstrip_by is_space s).

Definition eqb_str (a b : str) : bool :=
  if list_eq_dec ascii_dec a b then true else false.

(** [s.startswith(p)]. *)
Fixpoint startswith (p s : str) : bool :=
  match p, s with
  | [], _ => true
  | a :: p', b :: s' => Ascii.eqb a b && startswith p' s'
  | _ :: _, [] => false
  end.

(** [needle in s]. *)
Fixpoint contains (needle s : str) : bool :=
  startswith needle s ||
  match s with
  | [] => false
  | _ :: t => contains needle t
  end.

(** [s.replace(old, new)] for an [old] that is not empty: occurrences are
    taken from the left and do not overlap.  [skip] counts the characters
    of an occurrence still to be passed over. *)
Fixpoint replace_from (old new : str) (skip : nat) (s : str) : str :=
  match s with
  | [] => []
  | c :: t =>
      match skip with
      | S k => replace_from old new k t
      | O => if startswith old s
             then new ++ replace_from old new (length old - 1) t
             else c :: replace_from old new 0 t
      end
  end.

Definition replace (old new s : str) : str := replace_from old new 0 s.

(** [s.split(sep)] for a [sep] that is not empty.  [cur] is the piece being
    read, last character first. *)
Fixpoint split_from (sep : str) (skip : nat) (cur : str) (s : str)
    : list str :=
  match s with
  | [] => [rev cur]
  | c :: t =>
      match skip with
      | S k => split_from sep k cur t
      | O => if startswith sep s
             then rev cur :: split_from sep (length sep - 1) [] t
             else split_from sep 0 (c :: cur) t
      end
  end.

Definition split (sep s : str) : list str := split_from sep 0 [] s.

(** [sep.join(pieces)]. *)
Fixpoint join (sep : str) (pieces : list str) : str :=
  match pieces with
  | [] => []
  | [p] => p
  | p :: rest => p ++ sep ++ join sep rest
  end.

(** Truth value of a [str]. *)
Definition truthy (s : str) : bool :=
  match s with [] => false | _ => true end.

End Py.

(** What a call that may raise gives. *)
Inductive outcome (A : Type) : Type :=
| Returned (a : A)
| Raised.
Arguments Returned {A} a.
Arguments Raised {A}.

Definition bind {A B : Type} (m : outcome A) (f : A -> outcome B)
    : outcome B :=
  match m with
  | Returned a => f a
  | Raised => Raised
  end.

Notation "x <- m ;; f" := (bind m (fun x => f))
  (at level 61, m at next level, right associativity).

(** [l[i]], which raises [IndexError] out of range. *)
Definition index {A : Type} (l : list A) (i : nat) : outcome A :=
  match nth_error l i with
  | Some a => Returned a
  | None => Raised
  end.

(** ** Transcript windower *)

Module Windower.

(** The [while] loop of [get_transcript_chunks].  [fuel] bounds the number of
    iterations; [None] means the bound was hit before the loop left. *)
Fixpoint chunks_loop (fuel : nat) (transcript_text : str)
    (max_chars overlap_chars current_pos : Z) : option (list str) :=
  match fuel with
  | O => None
  | S fuel' =>
      if current_pos <? len transcript_text then
        let end_pos := Z.min (current_pos + max_chars) (len transcript_text) in
        let chunk := Py.slice transcript_text current_pos end_pos in
        let current_pos' := current_pos + (max_chars - overlap_chars) in
        if current_pos' >=? len transcript_text then Some [chunk]
        else option_map (cons chunk)
               (chunks_loop fuel' transcript_text max_chars overlap_chars
                  current_pos')
      else Some []
  end.

(** [get_transcript_chunks]: [None] when the loop never leaves (see
    [chunks_none_iff]: exactly when the text is not empty and
    [max_chars - overlap_chars <= 0]). *)
Definition get_transcript_chunks (transcript_text : str)
    (max_chars overlap_chars : Z) : option (list str) :=
  match transcript_text with
  | [] => Some []
  | _ => chunks_loop (S (length transcript_text)) transcript_text
           max_chars overlap_chars 0
  end.

End Windower.

(** ** Identifier extractor *)

Module Extractor.

(** The class [[a-zA-Z0-9_-]]. *)
Definition is_id_char (c : ascii) : bool :=
  Py.is_lower_ascii c || Py.is_upper_ascii c || Py.is_digit c
  || Ascii.eqb c "_" || Ascii.eqb c "-".

(** [re.fullmatch(r'[a-zA-Z0-9_-]{11}', s)]. *)
Definition fullmatch_id (s : str) : bool :=
  (length s =? 11)%nat && forallb is_id_char s.

(** One position of a pattern that takes exactly one character. *)
Inductive atom : Type :=
| Lit (c : ascii)   (* that character *)
| Dot.              (* [.]: any character but a newline *)

Definition atom_matches (a : atom) (c : ascii) : bool :=
  match a with
  | Lit x => Ascii.eqb x c
  | Dot => negb (Ascii.eqb c "010")
  end.

Definition lits (s : string) : list atom := map Lit (lit s).

(** Match a sequence of atoms at the head of [s]; the rest of [s]. *)
Fixpoint match_atoms (p : list atom) (s : str) : option str :=
  match p, s with
  | [], _ => Some s
  | a :: p', c :: s' => if atom_matches a c then match_atoms p' s' else None
  | _ :: _, [] => None
  end.

(** The group [([a-zA-Z0-9_-]{11})] at the head of [s], and the rest. *)
Definition capture_id (s : str) : option (str * str) :=
  let g := firstn 11 s in
  if fullmatch_id g then Some (g, skipn 11 s) else None.

(** The alternatives of
    [(?:v=|/videos/|embed\/|youtu.be\/|\/v\/|\/e\/|watch\?v=|v=)], in
    order.  [youtu_be] is the fourth one: [app.py] and
    [backend/wsgi_app.py] leave its dot unescaped, [api/wsgi_app.py] has
    [youtu\.be]. *)
Definition prefixes (youtu_be : list atom) : list (list atom) :=
  [ lits "v="; lits "/videos/"; lits "embed/"; youtu_be; lits "/v/";
    lits "/e/"; lits "watch?v="; lits "v=" ].

Definition youtu_be_dot : list atom := lits "youtu" ++ [Dot] ++ lits "be/".
Definition youtu_be_lit : list atom := lits "youtu.be/".

(** The first regular expression at the head of [s]: the alternatives are
    tried in order, and one whose prefix matches but whose group does not
    gives way to the next. *)
Fixpoint first_regex_at (alts : list (list atom)) (s : str) : option str :=
  match alts with
  | [] => None
  | p :: alts' =>
      match match_atoms p s with
      | Some rest =>
          match capture_id rest with
          | Some (g, _) => Some g
          | None => first_regex_at alts' s
          end
      | None => first_regex_at alts' s
      end
  end.

(** [$] without [re.MULTILINE]: the end of the string, or just before a
    newline that ends it. *)
Definition at_end (rest : str) : bool :=
  match rest with
  | [] => true
  | [c] => Ascii.eqb c "010"
  | _ => false
  end.

(** [([a-zA-Z0-9_-]{11})$] at the head of [s]. *)
Definition second_regex_at (s : str) : option str :=
  match capture_id s with
  | Some (g, rest) => if at_end rest then Some g else None
  | None => None
  end.

(** [re.search]: the match at the leftmost position that has one; its
    group 1. *)
Fixpoint search (match_at : str -> option str) (s : str) : option str :=
  match match_at s with
  | Some g => Some g
  | None =>
      match s with
      | [] => None
      | _ :: t => search match_at t
      end
  end.

(** The loop over [regexes]. *)
Definition regex_fallback (youtu_be : list atom) (url : str) : option str :=
  match search (first_regex_at (prefixes youtu_be)) url with
  | Some g => Some g
  | None => search second_regex_at url
  end.

(** [extract_youtube_video_id] of [TalkToYT-backend/app.py] and of
    [backend/wsgi_app.py], on a [str]. *)
Definition extract_youtube_video_id (url : str) : option str :=
  regex_fallback youtu_be_dot url.

(** What the extractor of [api/wsgi_app.py] reads of [urlparse(s)]. *)
Record ParseResult : Type := {
  hostname : option str;
  path : str;
  query : str
}.

(** [re.match(r'^https?://', s, re.IGNORECASE)]. *)
Definition has_http_scheme (s : str) : bool :=
  let l := map (fun c => if Py.is_upper_ascii c then Py.lower_char c else c) s
  in Py.startswith (lit "http://") l || Py.startswith (lit "https://") l.

(** A dictionary with [str] keys, in insertion order. *)
Fixpoint dict_get {V : Type} (d : list (str * V)) (k : str) : option V :=
  match d with
  | [] => None
  | (k', v) :: d' => if Py.eqb_str k' k then Some v else dict_get d' k
  end.

(** Truth value of a [vid] that is [None] or a [str]. *)
Definition truthy_opt (v : option str) : bool :=
  match v with
  | Some s => Py.truthy s
  | None => false
  end.

Section WithUrllib.

(** [urllib.parse.urlparse] and [urllib.parse.parse_qs]; either may raise. *)
Variable urlparse : str -> outcome ParseResult.
Variable parse_qs : str -> outcome (list (str * list str)).

(** [u.path.split(prefix)[1].split('/')[0]]. *)
Definition segment_after (prefix : string) (p : str) : outcome (option str) :=
  a <- index (Py.split (lit prefix) p) 1 ;;
  b <- index (Py.split (lit "/") a) 0 ;;
  Returned (Some b).

(** One of the three [if not vid and u.path.startswith(prefix)] steps. *)
Definition or_segment (prefix : string) (p : str) (vid : option str)
    : outcome (option str) :=
  if negb (truthy_opt vid) && Py.startswith (lit prefix) p
  then segment_after prefix p
  else Returned vid.

(** The body of the [try] block, after which [vid] is returned when it is
    an identifier: [Returned (Some vid)] for that [return], [Returned None]
    when the block ends without it. *)
Definition url_rules (s : str) : outcome (option str) :=
  let s := if has_http_scheme s then s else lit "https://" ++ s in
  u <- urlparse s ;;
  let host :=
    Py.replace (lit "www.") []
      (Py.lower (match hostname u with Some h => h | None => [] end)) in
  vid <-
    (if existsb (Py.eqb_str host)
          [lit "youtube.com"; lit "m.youtube.com"; lit "music.youtube.com"]
     then
       vid <- (if Py.eqb_str (path u) (lit "/watch")
               then q <- parse_qs (query u) ;;
                    match dict_get q (lit "v") with
                    | Some (v :: _) => Returned (Some v)
                    | Some [] | None => Returned None
                    end
               else Returned None) ;;
       vid <- or_segment "/embed/" (path u) vid ;;
       vid <- or_segment "/v/" (path u) vid ;;
       or_segment "/shorts/" (path u) vid
     else if Py.eqb_str host (lit "youtu.be")
     then b <- index (Py.split (lit "/")
                        (Py.lstrip_by (Ascii.eqb "/") (path u))) 0 ;;
          Returned (Some b)
     else Returned None) ;;
  match vid with
  | Some v => if Py.truthy v && fullmatch_id v then Returned (Some v)
              else Returned None
  | None => Returned None
  end.

(** [extract_youtube_video_id] of [api/wsgi_app.py], on a [str]:
    [except Exception: pass] sends a raising [try] block to the regular
    expressions, like one that ends without a [return]. *)
Definition extract_youtube_video_id_api (url : str) : outcome (option str) :=
  let s := Py.strip url in
  if fullmatch_id s then Returned (Some s)
  else
    match url_rules s with
    | Returned (Some vid) => Returned (Some vid)
    | Returned None | Raised => Returned (regex_fallback youtu_be_lit url)
    end.

End WithUrllib.

End Extractor.

(** ** The two functions of [urllib.parse] the extractor calls

    A model of the standard library on the code points 0..255.  The
    validation of a bracketed IPv6 host, which recent versions add to
    [urlsplit], and percent escapes of bytes above 127 in [parse_qs] are
    outside it; the theorems on the extractor that are stated for every
    input hold for any [urlparse] and [parse_qs] whatsoever. *)

Module Urllib.

Import Extractor.

Fixpoint find_index (f : ascii -> bool) (s : str) : option nat :=
  match s with
  | [] => None
  | c :: t => if f c then Some O else option_map S (find_index f t)
  end.

Definition has (c : ascii) (s : str) : bool := existsb (Ascii.eqb c) s.

Definition is_c0_or_space (c : ascii) : bool := (Py.code c <=? 32)%N.

Definition is_unsafe (c : ascii) : bool :=
  (Py.code c =? 9)%N || (Py.code c =? 10)%N || (Py.code c =? 13)%N.

Definition is_scheme_char (c : ascii) : bool :=
  Py.is_lower_ascii c || Py.is_upper_ascii c || Py.is_digit c
  || Ascii.eqb c "+" || Ascii.eqb c "-" || Ascii.eqb c ".".

(** [urlsplit]: scheme, netloc, path (with its parameters) and query. *)
Definition urlsplit (url : str) : outcome (str * str * str * str) :=
  let url := Py.lstrip_by is_c0_or_space url in
  let url := filter (fun c => negb (is_unsafe c)) url in
  let '(scheme, url) :=
    match find_index (Ascii.eqb ":") url with
    | Some i =>
        if (0 <? i)%nat
           && match url with
              | c :: _ => Py.is_lower_ascii c || Py.is_upper_ascii c
              | [] => false
              end
           && forallb is_scheme_char (firstn i url)
        then (Py.lower (firstn i url), skipn (S i) url)
        else ([], url)
    | None => ([], url)
    end in
  let '(netloc, url) :=
    if Py.startswith (lit "//") url then
      let r := skipn 2 url in
      let d := match find_index
                       (fun c => Ascii.eqb c "/" || Ascii.eqb c "?"
                                 || Ascii.eqb c "#") r with
               | Some d => d
               | None => length r
               end in
      (firstn d r, skipn d r)
    else ([], url) in
  if xorb (has "[" netloc) (has "]" netloc) then Raised
  else
    let url := match find_index (Ascii.eqb "#") url with
               | Some i => firstn i url
               | None => url
               end in
    let '(url, query) :=
      match find_index (Ascii.eqb "?") url with
      | Some i => (firstn i url, skipn (S i) url)
      | None => (url, [])
      end in
    Returned (scheme, netloc, url, query).

Definition uses_params : list str :=
  map lit [""; "ftp"; "hdl"; "prospero"; "http"; "imap"; "https"; "shttp";
           "rtsp"; "rtspu"; "sip"; "sips"; "mms"; "sftp"; "tel"]%string.

(** [_splitparams(url)[0]]: the path without the parameters of its last
    segment. *)
Definition splitparams (url : str) : str :=
  match find_index (Ascii.eqb "/") (rev url) with
  | Some j =>
      let last_slash := (length url - 1 - j)%nat in
      match find_index (Ascii.eqb ";") (skipn last_slash url) with
      | Some i => firstn (last_slash + i) url
      | None => url
      end
  | None =>
      match find_index (Ascii.eqb ";") url with
      | Some i => firstn i url
      | None => url
      end
  end.

(** The [hostname] property of a parse result with this [netloc]. *)
Definition hostname_of (netloc : str) : option str :=
  let hostinfo := last (Py.split (lit "@") netloc) [] in
  let host :=
    match find_index (Ascii.eqb "[") hostinfo with
    | Some i =>
        let bracketed := skipn (S i) hostinfo in
        match find_index (Ascii.eqb "]") bracketed with
        | Some j => firstn j bracketed
        | None => bracketed
        end
    | None =>
        match find_index (Ascii.eqb ":") hostinfo with
        | Some j => firstn j hostinfo
        | None => hostinfo
        end
    end in
  match host with
  | [] => None
  | _ =>
      match find_index (Ascii.eqb "%") host with
      | Some i => Some (Py.lower (firstn i host) ++ skipn i host)
      | None => Some (Py.lower host)
      end
  end.

(** [urlparse]. *)
Definition urlparse (url : str) : outcome ParseResult :=
  r <- urlsplit url ;;
  let '(scheme, netloc, p, q) := r in
  let p := if existsb (Py.eqb_str scheme) uses_params && has ";" p
           then splitparams p else p in
  Returned {| hostname := hostname_of netloc; path := p; query := q |}.

Definition hex_value (c : ascii) : option N :=
  if Py.is_digit c then Some (Py.code c - 48)%N
  else if Py.in_range 97 102 c then Some (Py.code c - 87)%N
  else if Py.in_range 65 70 c then Some (Py.code c - 55)%N
  else None.

(** [unquote]: an escape [%XY] of a byte below 128 is that character.
    [skip] counts the characters of an escape still to be passed over. *)
Fixpoint unquote_from (skip : nat) (s : str) : str :=
  match s with
  | [] => []
  | c :: t =>
      match skip with
      | S k => unquote_from k t
      | O =>
          match t with
          | x :: y :: _ =>
              match hex_value x, hex_value y with
              | Some a, Some b =>
                  if Ascii.eqb c "%" && (a <? 8)%N
                  then ascii_of_N (16 * a + b) :: unquote_from 2 t
                  else c :: unquote_from 0 t
              | _, _ => c :: unquote_from 0 t
              end
          | _ => c :: unquote_from 0 t
          end
      end
  end.

Definition unquote (s : str) : str := unquote_from 0 s.

Definition plus_to_space (s : str) : str :=
  map (fun c => if Ascii.eqb c "+" then " "%char else c) s.

(** [parse_qsl(qs)]: the fields are separated by [&]; one without [=] or
    with an empty value is dropped. *)
Definition parse_qsl (qs : str) : list (str * str) :=
  match qs with
  | [] => []
  | _ =>
      flat_map
        (fun name_value =>
           match find_index (Ascii.eqb "=") name_value with
           | Some i =>
               let name := firstn i name_value in
               let value := skipn (S i) name_value in
               if Py.truthy value
               then [(unquote (plus_to_space name),
                      unquote (plus_to_space value))]
               else []
           | None => []
           end)
        (Py.split (lit "&") qs)
  end.

Fixpoint dict_append (d : list (str * list str)) (k v : str)
    : list (str * list str) :=
  match d with
  | [] => [(k, [v])]
  | (k', vs) :: d' =>
      if Py.eqb_str k' k then (k', vs ++ [v]) :: d'
      else (k', vs) :: dict_append d' k v
  end.

(** [parse_qs]. *)
Definition parse_qs (qs : str) : outcome (list (str * list str)) :=
  Returned
    (fold_left (fun d kv => dict_append d (fst kv) (snd kv)) (parse_qsl qs)
       []).

(** The extractor of [api/wsgi_app.py] with this model of the library. *)
Definition extract_youtube_video_id (url : str) : outcome (option str) :=
  extract_youtube_video_id_api urlparse parse_qs url.

End Urllib.

(** ** Response normaliser *)

Module Normalizer.

(** [clean_ai_response] on a [str]. *)
Definition clean_ai_response (text : str) : str :=
  Py.strip (Py.replace (lit "**") [] text).

(** Length of the longest prefix of [s] whose characters satisfy [f]. *)
Fixpoint span (f : ascii -> bool) (s : str) : nat :=
  match s with
  | c :: t => if f c then S (span f t) else O
  | [] => O
  end.

Definition is_bullet (c : ascii) : bool := Ascii.eqb c "-" || Ascii.eqb c "*".

(** Length of the match of [^\s*[-*]\s*|\d+\.\s*] (with [re.MULTILINE]) at
    the head of [s]; [line_start] tells whether [^] matches there.  The
    classes before and after each star are disjoint, so the greedy match is
    the only one. *)
Definition marker_at (line_start : bool) (s : str) : option nat :=
  let bullet :=
    if line_start then
      let n := span Py.is_space s in
      match skipn n s with
      | c :: rest =>
          if is_bullet c then Some (n + 1 + span Py.is_space rest)%nat
          else None
      | [] => None
      end
    else None in
  match bullet with
  | Some n => Some n
  | None =>
      let d := span Py.is_digit s in
      match d, skipn d s with
      | S _, c :: rest =>
          if Ascii.eqb c "." then Some (d + 1 + span Py.is_space rest)%nat
          else None
      | _, _ => None
      end
  end.

(** [re.sub(r'^\s*[-*]\s*|\d+\.\s*', '', s, flags=re.MULTILINE)] from a
    position of [s]: [skip] counts the characters of a match still to be
    dropped, [line_start] tells whether the position is the start of the
    string or follows a newline. *)
Fixpoint sub_markers_from (skip : nat) (line_start : bool) (s : str) : str :=
  match s with
  | [] => []
  | c :: t =>
      let next_start := Ascii.eqb c "010" in
      match skip with
      | S k => sub_markers_from k next_start t
      | O =>
          match marker_at line_start s with
          | Some (S k) => sub_markers_from k next_start t
          | Some O | None => c :: sub_markers_from 0 next_start t
          end
      end
  end.

Definition sub_markers (s : str) : str := sub_markers_from 0 true s.

(** [[t.strip() for t in cleaned.split(',') if t.strip()]]. *)
Definition split_topics (cleaned : str) : list str :=
  filter Py.truthy (map Py.strip (Py.split (lit ",") cleaned)).

(** The parsing of [extract_topics] in [TalkToYT-backend/app.py]. *)
Definition parse_topics_app (topics_raw : str) : list str :=
  if Py.truthy topics_raw then split_topics (sub_markers topics_raw) else [].

(** The parsing of [extract_topics] in [api/wsgi_app.py] and
    [backend/wsgi_app.py]. *)
Definition parse_topics_api (resp : str) : list str :=
  split_topics (clean_ai_response resp).

End Normalizer.

(** ** Timestamp rendering *)

Module Timestamp.

Local Open Scope Q_scope.

(** What [float(seconds)] gives: it raises ([Invalid]), or returns a finite
    float, here its exact value, or an infinity or a NaN.  Floor division
    and remainder of a float by 3600 and by 60 are exact for
    [0 <= q < 2^53], the range of the theorems below. *)
Inductive seconds_value : Type :=
| Invalid
| Finite (q : Q)
| NotFinite.

(** [x // m], an integral float. *)
Definition floordiv (x m : Q) : Q := inject_Z (Qfloor (x / m)).

(** [x % m] for [m > 0]. *)
Definition modulo (x m : Q) : Q := x - m * floordiv x m.

(** [int(x)]: truncation towards zero. *)
Definition int (x : Q) : Z :=
  if Qle_bool 0 x then Qfloor x else Qceiling x.

Definition decimal (n : N) : str :=
  lit (NilZero.string_of_uint (N.to_uint n)).

(** [f"{z:02}"]: at least two characters, zeros after the sign. *)
Definition format_02 (z : Z) : str :=
  let digits := decimal (Z.to_N (Z.abs z)) in
  if (z <? 0)%Z then "-"%char :: repeat "0"%char (1 - length digits) ++ digits
  else repeat "0"%char (2 - length digits) ++ digits.

(** [format_timestamp]; [int] of a NaN raises. *)
Definition format_timestamp (seconds : seconds_value) : outcome str :=
  let render (seconds : Q) : str :=
    let hours := int (floordiv seconds 3600) in
    let minutes := int (floordiv (modulo seconds 3600) 60) in
    let secs := int (modulo seconds 60) in
    (lit "[" ++ format_02 hours ++ lit ":" ++ format_02 minutes ++ lit ":"
     ++ format_02 secs ++ lit "]")%list in
  match seconds with
  | Invalid => Returned (render 0)
  | Finite q => Returned (render q)
  | NotFinite => Raised
  end.

End Timestamp.

(** ** The generation service and the replies of the handlers *)

Module Service.

(** What the handlers read of a response of [model.generate_content]:
    [candidate_text] is [response.candidates[0].content.parts[0].text] when
    the candidates, the content and the parts are all there, [None] when
    the response is empty or blocked; [text_accessor] is [response.text],
    an accessor that may raise. *)
Record gen_response : Type := {
  candidate_text : option str;
  text_accessor : outcome str
}.

(** The service: what the call number [n] of a request (from 0) gives on a
    prompt; it may raise. *)
Definition service : Type := nat -> str -> outcome gen_response.

(** A computation that calls the service: it reads and extends the list of
    the prompts sent so far, and may raise. *)
Definition Gen (A : Type) : Type := list str -> outcome A * list str.

Definition gret {A : Type} (a : A) : Gen A := fun sent => (Returned a, sent).

Definition gbind {A B : Type} (m : Gen A) (f : A -> Gen B) : Gen B :=
  fun sent =>
    match m sent with
    | (Returned a, sent') => f a sent'
    | (Raised, sent') => (Raised, sent')
    end.

Definition lift {A : Type} (o : outcome A) : Gen A := fun sent => (o, sent).

(** [model.generate_content(prompt)]. *)
Definition generate_content (model : service) (prompt : str)
    : Gen gen_response :=
  fun sent => (model (length sent) prompt, sent ++ [prompt]).

(** The reply of a handler: [jsonify({field: value})], an error 400 with its
    message, or an error 500 (whose message is not modelled). *)
Inductive reply : Type :=
| Json (field : str) (value : str)
| BadRequest (error : str)
| ServerError.

(** Truth value of a request field that may be missing. *)
Definition given (field : option str) : bool :=
  match field with
  | Some s => Py.truthy s
  | None => false
  end.

End Service.

Notation "x <-- m ;; f" := (Service.gbind m (fun x => f))
  (at level 61, m at next level, right associativity).

Definition nl : str := ["010"%char].

(** ** Request orchestrator of [TalkToYT-backend/app.py] *)

Module App.

Import Service.

Definition MAX_TRANSCRIPT_LENGTH_CHARS : Z := 10000.
Definition OVERLAP_CHARS : Z := 500.

Definition fallback : str :=
  lit "The information is not available in the video's transcript.".

(** [prompt_template] of [chat_with_video], before [.format]. *)
Definition prompt_template (user_query : str) : str :=
  concat
    [ lit "You are an AI assistant specialized in analyzing YouTube video transcripts. ";
      lit "A user is asking a question about a video. ";
      lit "Here is a relevant segment (or the entire) transcript of the video:";
      nl; nl; lit "---"; nl; lit "{transcript_segment}"; nl; lit "---"; nl; nl;
      lit "Based ONLY on the provided transcript segment, answer the following question from the user:";
      nl; lit "User Query: "; user_query; nl; nl;
      lit "IMPORTANT: If the answer is directly related to a specific point or event in the video and you can identify ";
      lit "an approximate timestamp from the context, include the timestamp in your answer. ";
      lit "Format the timestamp as [HH:MM:SS]. ";
      lit "For example: 'The speaker mentions X at [00:01:15].' ";
      lit "If the information is NOT present in the provided transcript segment, ";
      lit "state clearly that 'The information is not available in the video's transcript.' ";
      lit "Do not make up information." ].

(** The prompt of [summarize_video] for one chunk. *)
Definition summary_prompt (chunk : str) : str :=
  concat
    [ lit "Please provide a concise summary of the following video transcript chunk. ";
      lit "Focus on key points and takeaways."; nl; nl; lit "---"; nl;
      chunk; nl; lit "---" ].

(** The test on [part_text] in [chat_with_video]. *)
Definition substantial (part_text : str) : bool :=
  Py.truthy part_text
  && negb (Py.contains (lit "not available") (Py.lower part_text))
  && negb (Py.contains (lit "cannot process") (Py.lower part_text)).

Section WithCollaborators.

(** [template.format(transcript_segment=segment)], which raises on a stray
    brace of the user's text, and the generation service. *)
Variable str_format : str -> str -> outcome str.
Variable model : service.

(** The [for] loop of [chat_with_video]: the answer it breaks on, if any. *)
Fixpoint chat_loop (template : str) (transcript_chunks : list str)
    : Gen (option str) :=
  match transcript_chunks with
  | [] => gret None
  | chunk :: rest =>
      current_prompt <-- lift (str_format template chunk) ;;
      response <-- generate_content model current_prompt ;;
      match candidate_text response with
      | Some part_text =>
          if substantial part_text then gret (Some part_text)
          else chat_loop template rest
      | None => chat_loop template rest
      end
  end.

(** [chat_with_video]: the reply and the prompts sent; [None] if the
    windowing does not return. *)
Definition chat_with_video (user_query video_transcript : option str)
    : option (reply * list str) :=
  match user_query, video_transcript with
  | Some query, Some transcript =>
      if Py.truthy query && Py.truthy transcript then
        match Windower.get_transcript_chunks transcript MAX_TRANSCRIPT_LENGTH_CHARS
                OVERLAP_CHARS with
        | None => None
        | Some chunks =>
            let transcript_chunks :=
              match chunks with [] => [transcript] | _ => chunks end in
            match chat_loop (prompt_template query) transcript_chunks [] with
            | (Returned (Some part_text), sent) =>
                Some (Json (lit "response") part_text, sent)
            | (Returned None, sent) =>
                Some (Json (lit "response") fallback, sent)
            | (Raised, sent) => Some (ServerError, sent)
            end
        end
      else
        Some (BadRequest (lit "User query and video transcript are required"),
              [])
  | _, _ =>
      Some (BadRequest (lit "User query and video transcript are required"),
            [])
  end.

(** The [for] loop of [summarize_video]. *)
Fixpoint summary_loop (transcript_chunks : list str) (summaries : list str)
    : Gen (list str) :=
  match transcript_chunks with
  | [] => gret summaries
  | chunk :: rest =>
      response <-- generate_content model (summary_prompt chunk) ;;
      match candidate_text response with
      | Some summary_chunk_text =>
          summary_loop rest (summaries ++ [summary_chunk_text])
      | None => summary_loop rest summaries
      end
  end.

(** [summarize_video] from the chunks on. *)
Definition summarize_chunks (transcript_chunks : list str)
    : reply * list str :=
  match transcript_chunks with
  | [] => (Json (lit "summary") (lit "No content to summarize."), [])
  | _ =>
      match summary_loop transcript_chunks [] [] with
      | (Returned summaries, sent) =>
          let final_summary := Py.strip (Py.join (lit " ") summaries) in
          (Json (lit "summary")
             (if Py.truthy final_summary then final_summary
              else lit "Could not generate a comprehensive summary based on the provided transcript."),
           sent)
      | (Raised, sent) => (ServerError, sent)
      end
  end.

(** [summarize_video]. *)
Definition summarize_video (video_transcript : option str)
    : option (reply * list str) :=
  if given video_transcript then
    match Windower.get_transcript_chunks
            (match video_transcript with Some t => t | None => [] end)
            MAX_TRANSCRIPT_LENGTH_CHARS OVERLAP_CHARS with
    | None => None
    | Some transcript_chunks => Some (summarize_chunks transcript_chunks)
    end
  else Some (BadRequest (lit "Video transcript is required"), []).

End WithCollaborators.

End App.

(** One item of [conversation_history]: its [role], if any, and its text. *)
Record turn : Type := {
  role : option str;
  said : str
}.

(** ** Request orchestrator of [backend/wsgi_app.py] *)

Module Backend.

Import Service.

Definition MAX_TRANSCRIPT_LENGTH_CHARS : Z := 12000.
Definition OVERLAP_CHARS : Z := 500.

Definition fallback : str :=
  lit "I'm sorry, I couldn't find an answer to that in the video content.".

(** [history_string] of [chat_with_video]. *)
Definition history_string (conversation_history : list turn) : str :=
  Py.join nl
    (map (fun item =>
            (match role item with
             | Some r => if Py.eqb_str r (lit "user") then lit "You"
                         else lit "Sanchar"
             | None => lit "Sanchar"
             end) ++ lit ": " ++ said item)
       conversation_history).

(** [prompt_template] of [chat_with_video], before [.format]. *)
Definition prompt_template (history user_query : str) : str :=
  concat
    [ lit "You are Sanchar, a helpful AI video assistant. Your purpose is to answer questions about a video based on its content. ";
      lit "Be concise and focus on providing only the necessary details to answer the user's question directly. ";
      lit "Do NOT mention that you are analyzing a 'transcript'; refer to it as 'the video's content' or 'in the video'. ";
      lit "If the user's query is vague, ask a clarifying follow-up question.";
      nl; nl; lit "--- PREVIOUS CONVERSATION ---"; nl; history; nl; nl;
      lit "--- VIDEO CONTENT ---"; nl; lit "{transcript_segment}"; nl;
      lit "---"; nl; nl;
      lit "Based on the video content and the conversation history, answer the latest user query.";
      nl; lit "User Query: "; user_query; nl; nl; lit "Sanchar's Answer:" ].

(** The prompt of step 1 of [summarize_video] for one chunk. *)
Definition summary_prompt (chunk : str) : str :=
  concat
    [ lit "Provide a detailed summary of the following video content segment. ";
      lit "Focus on the key points, arguments, and conclusions presented.";
      nl; nl; lit "---"; nl; chunk; nl; lit "---" ].

(** [combined_summaries]. *)
Definition combined (summaries : list str) : str :=
  Py.join (nl ++ nl ++ lit "---" ++ nl ++ nl) summaries.

(** [final_prompt] of step 2 of [summarize_video]. *)
Definition final_prompt (combined_summaries : str) : str :=
  concat
    [ lit "You are Sanchar, a helpful AI video assistant. ";
      lit "You will be given several summaries from different parts of a single video. ";
      lit "Your task is to synthesize them into one final, coherent response. ";
      lit "The response must be well-structured, easy to read, and must not mention that it's from a transcript.";
      nl; nl; lit "Format the output with two distinct sections:"; nl;
      lit "1. A 'Summary' section: A concise, flowing paragraph that captures the main ideas of the entire video.";
      nl;
      lit "2. A 'Key Takeaways' section: A bulleted list of the most important points or actionable items mentioned.";
      nl; nl; lit "--- Individual Summaries ---"; nl; combined_summaries;
      nl; nl; lit "--- Final Synthesized Response ---" ].

(** The last lines of [summarize_video]. *)
Definition finish (final_summary_text : str) : str :=
  let cleaned_summary := Normalizer.clean_ai_response final_summary_text in
  if Py.truthy cleaned_summary then cleaned_summary
  else lit "I could not generate a summary for this video.".

Section WithCollaborators.

Variable str_format : str -> str -> outcome str.
Variable model : service.

(** [chat_with_video]. *)
Definition chat_with_video (user_query video_transcript : option str)
    (conversation_history : list turn) : reply * list str :=
  match user_query, video_transcript with
  | Some query, Some transcript =>
      if Py.truthy query && Py.truthy transcript then
        let template :=
          prompt_template (history_string conversation_history) query in
        let transcript_segment :=
          if len transcript >? 100000 then Py.slice transcript 0 100000
          else transcript in
        match (current_prompt <-- lift (str_format template
                                          transcript_segment) ;;
               response <-- generate_content model current_prompt ;;
               match candidate_text response with
               | Some part_text =>
                   gret (Normalizer.clean_ai_response part_text)
               | None => gret fallback
               end) [] with
        | (Returned ai_response_text, sent) =>
            (Json (lit "response") ai_response_text, sent)
        | (Raised, sent) => (ServerError, sent)
        end
      else
        (BadRequest (lit "User query and video transcript are required"), [])
  | _, _ =>
      (BadRequest (lit "User query and video transcript are required"), [])
  end.

(** Step 1 of [summarize_video]. *)
Fixpoint summary_loop (transcript_chunks : list str) (summaries : list str)
    : Gen (list str) :=
  match transcript_chunks with
  | [] => gret summaries
  | chunk :: rest =>
      response <-- generate_content model (summary_prompt chunk) ;;
      text <-- lift (text_accessor response) ;;
      summary_loop rest
        (if Py.truthy text then summaries ++ [text] else summaries)
  end.

(** [summarize_video] from the chunks on. *)
Definition summarize_chunks (transcript_chunks : list str)
    : reply * list str :=
  match transcript_chunks with
  | [] => (Json (lit "summary") (lit "There is no content to summarize."), [])
  | _ =>
      match (summaries <-- summary_loop transcript_chunks [] ;;
             if (1 <? length summaries)%nat then
               final_response <--
                 generate_content model (final_prompt (combined summaries)) ;;
               lift (text_accessor final_response)
             else
               gret (match summaries with s :: _ => s | [] => [] end)) []
      with
      | (Returned final_summary_text, sent) =>
          (Json (lit "summary") (finish final_summary_text), sent)
      | (Raised, sent) => (ServerError, sent)
      end
  end.

(** [summarize_video]. *)
Definition summarize_video (video_transcript : option str)
    : option (reply * list str) :=
  if given video_transcript then
    match Windower.get_transcript_chunks
            (match video_transcript with Some t => t | None => [] end)
            MAX_TRANSCRIPT_LENGTH_CHARS OVERLAP_CHARS with
    | None => None
    | Some transcript_chunks => Some (summarize_chunks transcript_chunks)
    end
  else Some (BadRequest (lit "Video transcript is required"), []).

End WithCollaborators.

End Backend.

(** ** Request orchestrator of [api/wsgi_app.py] *)

Module Api.

Import Service.

Definition MAX_TRANSCRIPT_LENGTH_CHARS : Z := 12000.
Definition OVERLAP_CHARS : Z := 500.

Definition fallback : str :=
  lit "I'm sorry, I couldn't find an answer to that in the video content.".

(** One item of [video_transcript_list]: what [float] makes of its [start]
    and its text. *)
Record segment : Type := {
  start : Timestamp.seconds_value;
  spoken : str
}.

(** The [join] over the transcript list; it raises when a timestamp does. *)
Fixpoint stamped (items : list segment) : outcome (list str) :=
  match items with
  | [] => Returned []
  | item :: rest =>
      stamp <- Timestamp.format_timestamp (start item) ;;
      others <- stamped rest ;;
      Returned ((stamp ++ lit " " ++ spoken item) :: others)
  end.

(** [formatted_transcript] of [chat_with_video]. *)
Definition formatted_transcript (video_transcript_list : list segment)
    (video_transcript : option str) : str :=
  let formatted :=
    match video_transcript_list with
    | [] => []
    | _ =>
        match stamped video_transcript_list with
        | Returned pieces => Py.join (lit " ") pieces
        | Raised => []
        end
    end in
  if Py.truthy formatted then formatted
  else match video_transcript with Some t => t | None => formatted end.

(** [history_string] of [chat_with_video]: the last twelve items. *)
Definition history_string (conversation_history : list turn) : str :=
  Py.join nl
    (map (fun item =>
            (match role item with
             | Some r => if Py.eqb_str r (lit "user") then lit "You"
                         else lit "Sanchar"
             | None => lit "You"
             end) ++ lit ": " ++ said item)
       (skipn (length conversation_history - 12) conversation_history)).

(** [prompt_template] of [chat_with_video]. *)
Definition prompt_template (history formatted user_query : str) : str :=
  concat
    [ lit "You are Sanchar, an AI video assistant. Answer the user's question based ONLY on the video content below. ";
      lit "The transcript is formatted with timestamps like [HH:MM:SS].";
      nl; nl; lit "REQUIREMENTS:"; nl;
      lit "1) Begin your answer with the most relevant timestamp in [HH:MM:SS] format.";
      nl; lit "2) Keep your answer concise and factual."; nl;
      lit "3) If you cannot find an answer in the video, say so."; nl; nl;
      lit "--- PREVIOUS CONVERSATION ---"; nl; history; nl; nl;
      lit "--- VIDEO CONTENT ---"; nl; formatted; nl; lit "---"; nl; nl;
      lit "User Query: "; user_query; nl; nl; lit "Sanchar's Answer:" ].

Definition summary_prompt (chunk : str) : str :=
  concat
    [ lit "Provide a detailed summary of the following video content segment. ";
      lit "Focus on key points, arguments, and conclusions.";
      nl; nl; lit "---"; nl; chunk; nl; lit "---" ].

Definition combined (summaries : list str) : str :=
  Py.join (nl ++ nl ++ lit "---" ++ nl ++ nl) summaries.

Definition final_prompt (combined_summaries : str) : str :=
  concat
    [ lit "You are Sanchar, a helpful AI video assistant. ";
      lit "You will be given several summaries from different parts of a single video. ";
      lit "Synthesize them into a structured response.";
      nl; nl; lit "FORMAT:"; nl;
      lit "1) Summary: a concise paragraph of the whole video."; nl;
      lit "2) Key Takeaways: a bulleted list of the most important points.";
      nl; nl; lit "--- Individual Summaries ---"; nl; combined_summaries;
      nl; nl; lit "--- Final Synthesized Response ---" ].

Definition finish (final_summary_text : str) : str :=
  let cleaned := Normalizer.clean_ai_response final_summary_text in
  if Py.truthy cleaned then cleaned
  else lit "I could not generate a summary for this video.".

Section WithCollaborators.

(** The generation service; the model is taken to be initialised. *)
Variable model : service.

(** What [call_gemini] returns on the response of call [n]. *)
Definition gemini_text (n : nat) (prompt : str) : str :=
  match model n prompt with
  | Returned resp =>
      match text_accessor resp with
      | Returned text =>
          if Py.truthy text then text
          else match candidate_text resp with
               | Some part_text => part_text
               | None => []
               end
      | Raised => []
      end
  | Raised => []
  end.

(** [call_gemini]: it catches every exception. *)
Definition call_gemini (prompt : str) : Gen str :=
  fun sent => (Returned (gemini_text (length sent) prompt), sent ++ [prompt]).

(** [chat_with_video]. *)
Definition chat_with_video (user_query : option str)
    (video_transcript_list : list segment) (video_transcript : option str)
    (conversation_history : list turn) : reply * list str :=
  if negb (given user_query) then
    (BadRequest (lit "User query is required"), [])
  else if match video_transcript_list with [] => true | _ => false end
          && negb (given video_transcript) then
    (BadRequest
       (lit "Either 'video_transcript_list' or 'video_transcript' is required"),
     [])
  else
    let prompt :=
      prompt_template (history_string conversation_history)
        (formatted_transcript video_transcript_list video_transcript)
        (match user_query with Some q => q | None => [] end) in
    match (ai_raw <-- call_gemini prompt ;;
           let cleaned := Normalizer.clean_ai_response ai_raw in
           gret (if Py.truthy cleaned then cleaned else fallback)) [] with
    | (Returned ai_response_text, sent) =>
        (Json (lit "response") ai_response_text, sent)
    | (Raised, sent) => (ServerError, sent)
    end.

(** Step 1 of [summarize_video]. *)
Fixpoint summary_loop (transcript_chunks : list str) (summaries : list str)
    : Gen (list str) :=
  match transcript_chunks with
  | [] => gret summaries
  | chunk :: rest =>
      resp <-- call_gemini (summary_prompt chunk) ;;
      summary_loop rest
        (if Py.truthy resp then summaries ++ [resp] else summaries)
  end.

(** [summarize_video] from the chunks on. *)
Definition summarize_chunks (transcript_chunks : list str)
    : reply * list str :=
  match transcript_chunks with
  | [] => (Json (lit "summary") (lit "There is no content to summarize."), [])
  | _ =>
      match (summaries <-- summary_loop transcript_chunks [] ;;
             if (1 <? length summaries)%nat then
               call_gemini (final_prompt (combined summaries))
             else
               gret (match summaries with s :: _ => s | [] => [] end)) []
      with
      | (Returned final_summary_text, sent) =>
          (Json (lit "summary") (finish final_summary_text), sent)
      | (Raised, sent) => (ServerError, sent)
      end
  end.

(** [summarize_video]. *)
Definition summarize_video (video_transcript : option str)
    : option (reply * list str) :=
  if given video_transcript then
    match Windower.get_transcript_chunks
            (match video_transcript with Some t => t | None => [] end)
            MAX_TRANSCRIPT_LENGTH_CHARS OVERLAP_CHARS with
    | None => None
    | Some transcript_chunks => Some (summarize_chunks transcript_chunks)
    end
  else Some (BadRequest (lit "Video transcript is required"), []).

End WithCollaborators.

End Api.

(** ** Topic extraction handlers *)

(** The reply of [extract_topics]: the list of topics, an error 400 with
    its message, or an error 500. *)
Inductive topics_reply : Type :=
| Topics (topics : list str)
| TopicsBadRequest (error : str)
| TopicsServerError.

Module TopicsApp.

Import Service.

(** The prompt of [extract_topics] in [TalkToYT-backend/app.py]. *)
Definition prompt (transcript_segment : str) : str :=
  concat
    [ lit "Analyze the following video transcript segment and extract the top 5-10 most important key topics or keywords. ";
      lit "Present them as a comma-separated list of short phrases or single words, for example: 'Topic 1, Keyword 2, Topic 3'. ";
      lit "Do not include numbering or bullet points. Just the comma-separated list.";
      nl; nl; lit "---"; nl; transcript_segment; nl; lit "---" ].

(** [extract_topics] of [TalkToYT-backend/app.py]. *)
Definition extract_topics (model : service) (video_transcript : option str)
    : topics_reply * list str :=
  if given video_transcript then
    let t := match video_transcript with Some t => t | None => [] end in
    let transcript_segment :=
      if len t >? App.MAX_TRANSCRIPT_LENGTH_CHARS
      then Py.slice t 0 App.MAX_TRANSCRIPT_LENGTH_CHARS else t in
    match generate_content model (prompt transcript_segment) [] with
    | (Returned response, sent) =>
        let topics_raw :=
          match candidate_text response with
          | Some text => text
          | None => []
          end in
        (Topics (Normalizer.parse_topics_app topics_raw), sent)
    | (Raised, sent) => (TopicsServerError, sent)
    end
  else (TopicsBadRequest (lit "Video transcript is required"), []).

End TopicsApp.

Module TopicsBackend.

Import Service.

(** The prompt of [extract_topics] in [backend/wsgi_app.py]. *)
Definition prompt (transcript_segment : str) : str :=
  concat
    [ lit "Analyze the following video content and extract the top 5-7 most important topics. ";
      lit "Present them as a simple, clean, comma-separated list (e.g., 'Topic 1, Topic 2, Topic 3'). ";
      lit "Do not use numbers or bullet points."; nl; nl; lit "---"; nl;
      transcript_segment; nl; lit "---" ].

(** [extract_topics] of [backend/wsgi_app.py]. *)
Definition extract_topics (model : service) (video_transcript : option str)
    : topics_reply * list str :=
  if given video_transcript then
    let t := match video_transcript with Some t => t | None => [] end in
    let transcript_segment :=
      Py.slice t 0 Backend.MAX_TRANSCRIPT_LENGTH_CHARS in
    match (response <-- generate_content model (prompt transcript_segment) ;;
           lift (text_accessor response)) [] with
    | (Returned topics_raw, sent) =>
        (Topics (Normalizer.parse_topics_api topics_raw), sent)
    | (Raised, sent) => (TopicsServerError, sent)
    end
  else (TopicsBadRequest (lit "Video transcript is required"), []).

End TopicsBackend.

Module TopicsApi.

Import Service.

(** The prompt of [extract_topics] in [api/wsgi_app.py]. *)
Definition prompt (segment : str) : str :=
  concat
    [ lit "Analyze the following video content and extract the top 5-7 most important topics. ";
      lit "Return a simple, clean, comma-separated list (e.g., 'Topic 1, Topic 2, Topic 3'). ";
      lit "Do not use numbers or bullet points."; nl; nl; lit "---"; nl;
      segment; nl; lit "---" ].

(** [extract_topics] of [api/wsgi_app.py]. *)
Definition extract_topics (model : service) (video_transcript : option str)
    : topics_reply * list str :=
  if given video_transcript then
    let t := match video_transcript with Some t => t | None => [] end in
    let segment := Py.slice t 0 Api.MAX_TRANSCRIPT_LENGTH_CHARS in
    match Api.call_gemini model (prompt segment) [] with
    | (Returned resp, sent) =>
        (Topics (Normalizer.parse_topics_api resp), sent)
    | (Raised, sent) => (TopicsServerError, sent)
    end
  else (TopicsBadRequest (lit "Video transcript is required"), []).

End TopicsApi.

(** ** Metadata scraping and [extract_video_info] *)

Module Metadata.

(** The double quote. *)
Definition quote : ascii := ascii_of_N 34.

(** The opening of a meta tag of the Open Graph property [name], up to and
    with the double quote that opens its content. *)
Definition og_tag (name : string) : str :=
  lit "<meta property=" ++ [quote] ++ lit name ++ [quote] ++ lit " content="
  ++ [quote].

(** The meta tag expression at the head of [s]: the opening of the tag,
    then the group, the characters up to the next double quote, which has
    to be there. *)
Definition meta_content_at (tag : str) (s : str) : option str :=
  if Py.startswith tag s then
    let rest := skipn (length tag) s in
    match Urllib.find_index (Ascii.eqb quote) rest with
    | Some i => Some (firstn i rest)
    | None => None
    end
  else None.

(** [page_url]. *)
Definition page_url (video_id : str) : str :=
  lit "https://www.youtube.com/watch?v=" ++ video_id.

Definition or_default (found : option str) (default : string) : str :=
  match found with
  | Some value => value
  | None => lit default
  end.

(** The two [replace] calls of [TalkToYT-backend/app.py]. *)
Definition sanitize (s : str) : str :=
  Py.replace (lit "&#39;") (lit "'") (Py.replace (lit "&amp;") (lit "&") s).

(** What [requests.get(page_url, ...)], [raise_for_status()] and [.text]
    give: the text of the page, an exception of
    [requests.exceptions.RequestException], or any other exception. *)
Inductive fetched : Type :=
| Page (html : str)
| RequestException
| OtherException.

(** The two values that the scraping reads off a page. *)
Definition scraped (html : str) (unknown_title no_description : string)
    : str * str :=
  (or_default (Extractor.search (meta_content_at (og_tag "og:title")) html)
     unknown_title,
   or_default
     (Extractor.search (meta_content_at (og_tag "og:description")) html)
     no_description).

(** The two placeholders of the handlers of exceptions. *)
Definition placeholders : str * str :=
  (lit "Error fetching title", lit "Error fetching description").

Section WithRequests.

Variable fetch : str -> fetched.

(** [get_video_metadata_from_webpage] of [backend/wsgi_app.py]: it catches
    [requests.exceptions.RequestException] only, any other exception leaves
    the function. *)
Definition get_video_metadata_from_webpage (video_id : str)
    : outcome (str * str) :=
  match fetch (page_url video_id) with
  | Page html_content =>
      Returned (scraped html_content "Unknown Title"
                  "No Description Available")
  | RequestException => Returned placeholders
  | OtherException => Raised
  end.

(** [get_video_metadata_from_webpage] of [api/wsgi_app.py]: it catches
    every exception. *)
Definition get_video_metadata_from_webpage_api (video_id : str)
    : str * str :=
  match fetch (page_url video_id) with
  | Page html => scraped html "Unknown Title" "No Description Available"
  | RequestException => placeholders
  | OtherException => placeholders
  end.

(** [get_video_metadata_from_webpage] of [TalkToYT-backend/app.py]: the two
    values are sanitized, and both handlers of exceptions return the
    placeholders. *)
Definition get_video_metadata_from_webpage_app (video_id : str)
    : str * str :=
  match fetch (page_url video_id) with
  | Page html_content =>
      let '(title, description) :=
        scraped html_content "Unknown Title (Scraped)"
          "No Description Available (Scraped)" in
      (sanitize title, sanitize description)
  | RequestException => placeholders
  | OtherException => placeholders
  end.

End WithRequests.

(** What [YouTubeTranscriptApi.get_transcript] gives: the texts of the
    entries, or one of its exceptions. *)
Inductive transcript_result : Type :=
| Found (texts : list str)
| NoTranscriptFound
| TranscriptsDisabled
| OtherFailure.

(** The reply of [extract_video_info]: the four fields of the success
    body, an error with its status and message, or the error 500 of its
    last handler. *)
Inductive info_reply : Type :=
| Info (videoId title description transcript : str)
| InfoError (status : Z) (error : str)
| InfoServerError.

(** [extract_video_info] of [backend/wsgi_app.py].  The scraping is called
    outside the [try]: an exception that leaves it leaves the handler. *)
Definition extract_video_info (fetch : str -> fetched)
    (get_transcript : str -> transcript_result) (video_url : option str)
    : outcome info_reply :=
  if Service.given video_url then
    let url := match video_url with Some u => u | None => [] end in
    match Extractor.extract_youtube_video_id url with
    | Some video_id =>
        if Py.truthy video_id then
          match get_video_metadata_from_webpage fetch video_id with
          | Returned (title, description) =>
              match get_transcript video_id with
              | Found texts =>
                  Returned
                    (Info video_id title description
                       (Py.join (lit " ") texts))
              | NoTranscriptFound =>
                  Returned
                    (InfoError 404
                       (lit "A transcript could not be found for this video."))
              | TranscriptsDisabled =>
                  Returned
                    (InfoError 403
                       (lit "Transcripts are disabled for this video."))
              | OtherFailure => Returned InfoServerError
              end
          | Raised => Raised
          end
        else Returned (InfoError 400 (lit "Invalid YouTube URL"))
    | None => Returned (InfoError 400 (lit "Invalid YouTube URL"))
    end
  else Returned (InfoError 400 (lit "Video URL is required")).

End Metadata.

(** A generation service that echoes [SUMMARY:] and the first ten characters
    of the prompt, and a formatter that puts the segment in the place of
    the first [{transcript_segment}] and raises if there is none. *)
Definition echo_service : Service.service :=
  fun _ prompt =>
    let text := lit "SUMMARY:" ++ Py.slice prompt 0 10 in
    Returned {| Service.candidate_text := Some text;
                Service.text_accessor := Returned text |}.

Definition format_first (template segment : str) : outcome str :=
  match Py.split (lit "{transcript_segment}") template with
  | before :: after :: rest =>
      Returned (before ++ segment
                ++ Py.join (lit "{transcript_segment}") (after :: rest))
  | _ => Raised
  end.

(** A generation service that answers every prompt with [text]. *)
Definition constant_service (text : str) : Service.service :=
  fun _ _ =>
    Returned {| Service.candidate_text := Some text;
                Service.text_accessor := Returned text |}.



(** The chunks, each with the number of the call that handles it when the
    first of them is handled by call [n]. *)
Definition numbered (n : nat) (chunks : list str) : list (nat * str) :=
  combine (seq n (length chunks)) chunks.


(** An atom that no identifier character matches. *)
Definition rejects_ids (a : Extractor.atom) : bool :=
  match a with
  | Extractor.Lit c => negb (Extractor.is_id_char c)
  | Extractor.Dot => false
  end.

(** Eleven identifier characters at the head of [s], if they stand there. *)
Definition id_run_at (s : str) : option str :=
  option_map fst (Extractor.capture_id s).

(** A string of which eleven identifier characters are a part. *)
Definition holds_id (s g : str) : Prop :=
  (exists a b, s = a ++ g ++ b) /\ Extractor.fullmatch_id g = true.

(** The bold marker [clean_ai_response] removes. *)
Definition two_stars : str := lit "**".

(** The separator of the topic list. *)
Definition comma : ascii := ","%char.

(** The character of the decimal digit [d]. *)
Definition digit_char (d : Z) : ascii := ascii_of_N (Z.to_N (48 + d)).

(** Ceiling of [a / b] for [b > 0]. *)
Definition cdiv (a b : Z) : Z := - ((- a) / b).

(** * Theorems *)

Import Windower.

Lemma cdiv_step a s : 0 < s -> cdiv a s = cdiv (a - s) s + 1.
Proof.
  intros Hs. unfold cdiv.
  replace (- (a - s)) with (- a + 1 * s) by lia.
  rewrite Z.div_add by lia. lia.
Qed.

Lemma cdiv_one a s : 0 < a <= s -> cdiv a s = 1.
Proof.
  intros H. unfold cdiv.
  assert ((- a) / s = -1); [| lia].
  symmetry. apply Z.div_unique with (r := s - a); lia.
Qed.

Lemma cdiv_le a s : 0 < s -> 0 < a -> 1 <= cdiv a s <= a.
Proof.
  intros Hs Ha. unfold cdiv.
  pose proof (Z.div_mod (- a) s ltac:(lia)) as E.
  pose proof (Z.mod_pos_bound (- a) s Hs) as B.
  nia.
Qed.


Lemma cdiv_bounds a s : 0 < s -> (cdiv a s - 1) * s < a <= cdiv a s * s.
Proof.
  intros Hs. unfold cdiv.
  pose proof (Z.div_mod (- a) s ltac:(lia)) as E.
  pose proof (Z.mod_pos_bound (- a) s Hs) as B.
  nia.
Qed.


Lemma slice_inside (s : str) (a b : Z) :
  0 <= a <= b -> b <= len s ->
  Py.slice s a b = firstn (Z.to_nat (b - a)) (skipn (Z.to_nat a) s).
Proof.
  intros H1 H2. unfold Py.slice, Py.norm_index.
  destruct (Z.ltb_spec a 0); [lia|].
  destruct (Z.ltb_spec b 0); [lia|].
  rewrite !Z.min_l by lia. reflexivity.
Qed.

Lemma slice_length (s : str) (a b : Z) :
  0 <= a <= b -> b <= len s -> len (Py.slice s a b) = b - a.
Proof.
  intros H1 H2. rewrite slice_inside by assumption.
  unfold len in *. rewrite length_firstn, length_skipn. lia.
Qed.


(** The loop from a position inside the text: with a positive step and enough
    fuel it leaves, and window [k] of its result is the slice that starts [k]
    steps further. *)
Lemma chunks_loop_spec (text : str) (M O : Z) :
  0 <= O < M ->
  forall (fuel : nat) (pos : Z),
    0 <= pos < len text ->
    (Z.to_nat (len text - pos) <= fuel)%nat ->
    exists chunks,
      chunks_loop fuel text M O pos = Some chunks /\
      Z.of_nat (length chunks) = cdiv (len text - pos) (M - O) /\
      forall k, (k < length chunks)%nat ->
        nth k chunks [] =
        Py.slice text (pos + Z.of_nat k * (M - O))
          (Z.min (pos + Z.of_nat k * (M - O) + M) (len text)).
Proof.
  intros HO. induction fuel as [|fuel IH]; intros pos Hpos Hfuel; [lia|].
  cbn [chunks_loop].
  destruct (Z.ltb_spec pos (len text)); [|lia].
  destruct (Z.geb_spec (pos + (M - O)) (len text)) as [Hge|Hlt].
  - eexists. split; [reflexivity|]. split.
    + rewrite cdiv_one by lia. reflexivity.
    + intros k Hk. cbn in Hk. assert (k = 0%nat) by lia. subst k.
      cbn [nth]. f_equal; lia.
  - destruct (IH (pos + (M - O))) as (l & El & Ll & Nl); [lia|lia|].
    rewrite El. cbn [option_map]. eexists. split; [reflexivity|]. split.
    + cbn [length]. rewrite Nat2Z.inj_succ, Ll.
      rewrite (cdiv_step (len text - pos) (M - O)) by lia.
      replace (len text - (pos + (M - O))) with (len text - pos - (M - O))
        by lia.
      lia.
    + intros [|k] Hk; cbn [nth].
      * f_equal; lia.
      * rewrite Nl by (cbn in Hk; lia). f_equal; lia.
Qed.

(** The function on a text that is not empty, window by window. *)
Lemma get_transcript_chunks_spec (text : str) (M O : Z) :
  0 <= O < M -> text <> [] ->
  exists chunks,
    get_transcript_chunks text M O = Some chunks /\
    Z.of_nat (length chunks) = cdiv (len text) (M - O) /\
    forall k, (k < length chunks)%nat ->
      nth k chunks [] =
      Py.slice text (Z.of_nat k * (M - O))
        (Z.min (Z.of_nat k * (M - O) + M) (len text)).
Proof.
  intros HO Hne.
  assert (Hlen : 0 < len text).
  { unfold len. destruct text; [congruence|cbn; lia]. }
  destruct (chunks_loop_spec text M O HO (S (length text)) 0)
    as (l & El & Ll & Nl); [lia|unfold len; lia|].
  exists l. split; [|split].
  - unfold get_transcript_chunks. destruct text; [congruence|exact El].
  - rewrite Ll. f_equal. lia.
  - intros k Hk. rewrite (Nl k Hk). f_equal.
Qed.

(** With a step that is not positive the loop never leaves a text that is
    not empty: no amount of fuel is enough. *)
Lemma chunks_loop_diverges (text : str) (M O : Z) :
  M - O <= 0 ->
  forall (fuel : nat) (pos : Z),
    pos < len text -> chunks_loop fuel text M O pos = None.
Proof.
  intros Hs. induction fuel as [|fuel IH]; intros pos Hpos; [reflexivity|].
  cbn [chunks_loop].
  destruct (Z.ltb_spec pos (len text)); [|lia].
  destruct (Z.geb_spec (pos + (M - O)) (len text)); [lia|].
  rewrite IH by lia. reflexivity.
Qed.

(** More fuel never changes a result. *)
Lemma chunks_loop_fuel_mono (text : str) (M O : Z) :
  forall (fuel fuel' : nat) (pos : Z) chunks,
    (fuel <= fuel')%nat ->
    chunks_loop fuel text M O pos = Some chunks ->
    chunks_loop fuel' text M O pos = Some chunks.
Proof.
  induction fuel as [|fuel IH]; intros fuel' pos chunks Hle H; [discriminate|].
  destruct fuel' as [|fuel']; [lia|].
  cbn [chunks_loop] in *.
  destruct (pos <? len text); [|exact H].
  destruct (pos + (M - O) >=? len text); [exact H|].
  destruct (chunks_loop fuel text M O (pos + (M - O))) as [l|] eqn:E;
    [|discriminate].
  rewrite (IH fuel' _ l) by (assumption || lia). exact H.
Qed.

(** [None] is the loop that never leaves, and nothing else. *)
Lemma chunks_none_iff (text : str) (M O : Z) :
  0 <= O ->
  get_transcript_chunks text M O = None <-> (text <> [] /\ M - O <= 0).
Proof.
  intros HO. split.
  - intros H. destruct (list_eq_dec ascii_dec text []) as [->|Hne];
      [discriminate|].
    split; [assumption|].
    destruct (Z_le_gt_dec (M - O) 0); [assumption|].
    destruct (get_transcript_chunks_spec text M O) as (l & El & _);
      [lia|assumption|congruence].
  - intros [Hne Hs]. unfold get_transcript_chunks.
    destruct text as [|c t]; [congruence|].
    apply chunks_loop_diverges; [assumption|unfold len; cbn; lia].
Qed.

Lemma text_len_pos (text : str) : text <> [] -> 0 < len text.
Proof. unfold len. destruct text; [congruence|cbn; lia]. Qed.

(** Every window of the result starts inside the text. *)
Lemma window_start_inside (L s : Z) (n k : nat) :
  0 < s -> Z.of_nat n = cdiv L s -> (k < n)%nat ->
  0 <= Z.of_nat k * s < L.
Proof.
  intros Hs Hn Hk. pose proof (cdiv_bounds L s Hs). nia.
Qed.

(** C10.  Under [0 <= overlap < maxLength] the windowing loop leaves for every
    text: each iteration moves the position forward by
    [maxLength - overlap >= 1], so window [k] starts at
    [k * (maxLength - overlap)], inside the text; there are at most
    [len text] windows, and each one is not empty and at most [maxLength]
    characters long. *)
Theorem windowing_terminates (text : str) (M O : Z) :
  0 <= O < M ->
  exists chunks,
    get_transcript_chunks text M O = Some chunks /\
    1 <= M - O /\
    (length chunks <= length text)%nat /\
    (forall k, (k < length chunks)%nat ->
       Z.of_nat k * (M - O) < len text /\
       nth k chunks [] =
       Py.slice text (Z.of_nat k * (M - O))
         (Z.min (Z.of_nat k * (M - O) + M) (len text))) /\
    Forall (fun chunk => 1 <= len chunk <= M) chunks.
Proof.
  intros HO.
  destruct (list_eq_dec ascii_dec text []) as [->|Hne].
  { exists []. split; [reflexivity|]. split; [lia|]. split; [cbn; lia|].
    split; [intros k Hk; cbn in Hk; lia|constructor]. }
  pose proof (text_len_pos text Hne) as HL.
  destruct (get_transcript_chunks_spec text M O HO Hne) as (l & El & Ll & Nl).
  assert (Hstart : forall k, (k < length l)%nat ->
            0 <= Z.of_nat k * (M - O) < len text).
  { intros k Hk.
    apply (window_start_inside (len text) (M - O) (length l));
      [lia|exact Ll|exact Hk]. }
  exists l. split; [exact El|]. split; [lia|]. split; [|split].
  - pose proof (cdiv_le (len text) (M - O) ltac:(lia) HL). unfold len in *.
    lia.
  - intros k Hk. split; [apply Hstart, Hk|apply Nl, Hk].
  - apply Forall_forall. intros c Hc.
    destruct (In_nth l c [] Hc) as (k & Hk & <-).
    rewrite (Nl k Hk). specialize (Hstart k Hk).
    rewrite slice_length by lia. lia.
Qed.

Lemma windowing_terminates_witness :
  exists chunks,
    get_transcript_chunks (lit "0123456789ab") 5 2 = Some chunks /\
    (length chunks <= 12)%nat.
Proof.
  destruct (windowing_terminates (lit "0123456789ab") 5 2 ltac:(lia))
    as (chunks & E & _ & Hn & _).
  exists chunks. split; [exact E|exact Hn].
Defined.





(** C2.  A transcript of 9600 characters with the constants of [app.py]
    ([max_chars = 10000], [overlap_chars = 500]): the first window already
    ends at the end of the text, and the loop emits a second window, the
    last 100 characters of the first. *)
Theorem chunks_after_end_reached :
  let text := repeat "a"%char (Z.to_nat 9600) in
  get_transcript_chunks text 10000 500 =
    Some [text; repeat "a"%char (Z.to_nat 100)] /\
  Z.min (0 + 10000) (len text) = len text.
Proof. vm_compute. split; reflexivity. Qed.

(** ** The identifier extractor *)

Import Extractor.

Lemma id_char_not_space (c : ascii) :
  is_id_char c = true -> Py.is_space c = false.
Proof.
  destruct c as [[] [] [] [] [] [] [] []]; vm_compute; congruence.
Qed.

Lemma lstrip_by_head (drop : ascii -> bool) (s : str) :
  forallb (fun c => negb (drop c)) s = true -> Py.lstrip_by drop s = s.
Proof.
  destruct s as [|c t]; [reflexivity|]. cbn.
  destruct (drop c); [discriminate|reflexivity].
Qed.

Lemma strip_id (s : str) : forallb is_id_char s = true -> Py.strip s = s.
Proof.
  intros H.
  assert (Hs : forallb (fun c => negb (Py.is_space c)) s = true).
  { apply forallb_forall. intros c Hc.
    rewrite forallb_forall in H. rewrite (id_char_not_space c (H c Hc)).
    reflexivity. }
  unfold Py.strip, Py.rstrip_by. rewrite (lstrip_by_head _ s Hs).
  rewrite lstrip_by_head; [apply rev_involutive|].
  apply forallb_forall. intros c Hc. rewrite forallb_forall in Hs.
  apply Hs. apply in_rev. exact Hc.
Qed.

Lemma match_atoms_ids (p : list atom) :
  existsb rejects_ids p = true ->
  forall s, forallb is_id_char s = true -> match_atoms p s = None.
Proof.
  induction p as [|a p IH]; intros Hp s Hs; [discriminate|].
  destruct s as [|c s]; [reflexivity|].
  cbn in *. apply andb_true_iff in Hs as [Hc Hs].
  destruct (atom_matches a c) eqn:Ea; [|reflexivity].
  apply orb_true_iff in Hp as [Ha|Hp]; [|apply IH; assumption].
  destruct a as [x|]; [|discriminate]. cbn in Ea, Ha.
  apply Ascii.eqb_eq in Ea. subst x. rewrite Hc in Ha. discriminate.
Qed.

Lemma first_regex_at_ids (alts : list (list atom)) (s : str) :
  forallb (existsb rejects_ids) alts = true ->
  forallb is_id_char s = true -> first_regex_at alts s = None.
Proof.
  induction alts as [|p alts IH]; intros Ha Hs; [reflexivity|].
  cbn in *. apply andb_true_iff in Ha as [Hp Ha].
  rewrite (match_atoms_ids p Hp s Hs). apply IH; assumption.
Qed.

(** The first regular expression finds nothing in a string of identifier
    characters: each of its prefixes holds a [=] or a [/]. *)
Lemma first_regex_search_ids (alts : list (list atom)) (s : str) :
  forallb (existsb rejects_ids) alts = true ->
  forallb is_id_char s = true -> search (first_regex_at alts) s = None.
Proof.
  intros Ha. induction s as [|c s IH]; intros Hs; cbn [search].
  - rewrite first_regex_at_ids by assumption. reflexivity.
  - rewrite first_regex_at_ids by assumption.
    cbn in Hs. apply andb_true_iff in Hs as [_ Hs]. apply IH, Hs.
Qed.

Lemma second_regex_search_id (s : str) :
  fullmatch_id s = true -> search second_regex_at s = Some s.
Proof.
  intros H. pose proof H as H'. unfold fullmatch_id in H'.
  apply andb_true_iff in H' as [Hl _]. apply Nat.eqb_eq in Hl.
  assert (E : second_regex_at s = Some s).
  { unfold second_regex_at, capture_id.
    rewrite firstn_all2 by lia. rewrite H.
    rewrite skipn_all2 by lia. reflexivity. }
  destruct s; cbn [search]; rewrite E; reflexivity.
Qed.

Lemma regex_fallback_id (youtu_be : list atom) (s : str) :
  existsb rejects_ids youtu_be = true ->
  fullmatch_id s = true -> regex_fallback youtu_be s = Some s.
Proof.
  intros Hy H. unfold regex_fallback.
  pose proof H as H'. unfold fullmatch_id in H'.
  apply andb_true_iff in H' as [_ Hs].
  rewrite first_regex_search_ids; [apply second_regex_search_id, H| |exact Hs].
  cbn [prefixes forallb]. rewrite Hy. reflexivity.
Qed.

(** C3.  The watch, short-link and shorts URLs of the identifier [abc12345678]
    and the bare identifier all yield [abc12345678], in the regular
    expression variant and in the URL parsing variant; and every string of
    eleven characters of [[A-Za-z0-9_-]] is returned as it is. *)
Theorem extraction_roundtrip_idempotent :
  let id := lit "abc12345678" in
  (Extractor.extract_youtube_video_id
     (lit "https://www.youtube.com/watch?v=abc12345678") = Some id /\
   Extractor.extract_youtube_video_id (lit "https://youtu.be/abc12345678")
     = Some id /\
   Extractor.extract_youtube_video_id
     (lit "https://www.youtube.com/shorts/abc12345678") = Some id /\
   Extractor.extract_youtube_video_id id = Some id) /\
  (Urllib.extract_youtube_video_id
     (lit "https://www.youtube.com/watch?v=abc12345678")
     = Returned (Some id) /\
   Urllib.extract_youtube_video_id (lit "https://youtu.be/abc12345678")
     = Returned (Some id) /\
   Urllib.extract_youtube_video_id
     (lit "https://www.youtube.com/shorts/abc12345678")
     = Returned (Some id) /\
   Urllib.extract_youtube_video_id id = Returned (Some id)) /\
  (forall v : str,
     fullmatch_id v = true ->
     Extractor.extract_youtube_video_id v = Some v /\
     forall urlparse parse_qs,
       extract_youtube_video_id_api urlparse parse_qs v
         = Returned (Some v)).
Proof.
  split; [repeat split|split; [repeat split|]].
  intros v Hv. split.
  - apply regex_fallback_id; [reflexivity|exact Hv].
  - intros urlparse parse_qs. unfold extract_youtube_video_id_api.
    pose proof Hv as H'. unfold fullmatch_id in H'.
    apply andb_true_iff in H' as [_ Hs].
    rewrite (strip_id v Hs), Hv. reflexivity.
Qed.

Lemma extraction_roundtrip_idempotent_witness :
  fullmatch_id (lit "dQw4w9WgXcQ") = true /\
  Extractor.extract_youtube_video_id (lit "dQw4w9WgXcQ")
    = Some (lit "dQw4w9WgXcQ").
Proof.
  split; [reflexivity|].
  destruct extraction_roundtrip_idempotent as (_ & _ & H).
  apply (H (lit "dQw4w9WgXcQ")). reflexivity.
Defined.

(** C8.  On every string the extractor returns: whatever [urlparse] and
    [parse_qs] do, a raising URL step sends the input to the regular
    expressions, and when nothing matches the result is [None]. *)
Theorem extraction_never_raises
    (urlparse : str -> outcome ParseResult)
    (parse_qs : str -> outcome (list (str * list str))) (url : str) :
  (exists r, extract_youtube_video_id_api urlparse parse_qs url = Returned r)
  /\
  (fullmatch_id (Py.strip url) = false ->
   urlparse (if has_http_scheme (Py.strip url) then Py.strip url
             else lit "https://" ++ Py.strip url) = Raised ->
   extract_youtube_video_id_api urlparse parse_qs url
     = Returned (regex_fallback youtu_be_lit url)) /\
  (fullmatch_id (Py.strip url) = false ->
   (forall vid, url_rules urlparse parse_qs (Py.strip url)
                  <> Returned (Some vid)) ->
   regex_fallback youtu_be_lit url = None ->
   extract_youtube_video_id_api urlparse parse_qs url = Returned None) /\
  (search (first_regex_at (prefixes youtu_be_dot)) url = None ->
   search second_regex_at url = None ->
   Extractor.extract_youtube_video_id url = None).
Proof.
  unfold extract_youtube_video_id_api.
  split; [|split; [|split]].
  - destruct (fullmatch_id (Py.strip url)); [eexists; reflexivity|].
    destruct (url_rules urlparse parse_qs (Py.strip url)) as [[vid|]|];
      eexists; reflexivity.
  - intros -> Hraise. unfold url_rules. rewrite Hraise. reflexivity.
  - intros -> Hno Hfb.
    destruct (url_rules urlparse parse_qs (Py.strip url)) as [[vid|]|];
      [exfalso; apply (Hno vid); reflexivity|rewrite Hfb..]; reflexivity.
  - intros H1 H2. unfold Extractor.extract_youtube_video_id, regex_fallback.
    rewrite H1. exact H2.
Qed.

Lemma extraction_never_raises_witness :
  Urllib.urlparse (lit "http://[bad") = Raised /\
  Urllib.extract_youtube_video_id (lit "http://[bad") = Returned None.
Proof.
  split; [reflexivity|].
  destruct (extraction_never_raises Urllib.urlparse Urllib.parse_qs
              (lit "http://[bad")) as (_ & H & _).
  unfold Urllib.extract_youtube_video_id. rewrite H; reflexivity.
Defined.

(** ** Topic parsing *)

Import Normalizer.

Lemma lstrip_by_idem (f : ascii -> bool) (s : str) :
  Py.lstrip_by f (Py.lstrip_by f s) = Py.lstrip_by f s.
Proof.
  induction s as [|c s IH]; [reflexivity|]. cbn.
  destruct (f c) eqn:E; [exact IH|]. cbn. rewrite E. reflexivity.
Qed.

Lemma lstrip_by_app_keep (f : ascii -> bool) (a : str) (c : ascii) :
  f c = false -> Py.lstrip_by f (a ++ [c]) = Py.lstrip_by f a ++ [c].
Proof.
  intros Hc. induction a as [|x a IH]; cbn.
  - rewrite Hc. reflexivity.
  - destruct (f x); [exact IH|reflexivity].
Qed.

Lemma rstrip_by_idem (f : ascii -> bool) (s : str) :
  Py.rstrip_by f (Py.rstrip_by f s) = Py.rstrip_by f s.
Proof.
  unfold Py.rstrip_by. rewrite rev_involutive, lstrip_by_idem. reflexivity.
Qed.

Lemma lstrip_rstrip_fixed (f : ascii -> bool) (u : str) :
  Py.lstrip_by f u = u -> Py.lstrip_by f (Py.rstrip_by f u) = Py.rstrip_by f u.
Proof.
  destruct u as [|c u]; [reflexivity|]. cbn [Py.lstrip_by].
  destruct (f c) eqn:E.
  - intros H. exfalso.
    assert (Hl : (length (Py.lstrip_by f u) <= length u)%nat).
    { clear. induction u as [|x u IH]; cbn; [lia|].
      destruct (f x); cbn; lia. }
    rewrite H in Hl. cbn in Hl. lia.
  - intros _. unfold Py.rstrip_by. cbn [rev].
    rewrite lstrip_by_app_keep by exact E.
    rewrite rev_app_distr. cbn. rewrite E. reflexivity.
Qed.

Lemma strip_idem (s : str) : Py.strip (Py.strip s) = Py.strip s.
Proof.
  unfold Py.strip.
  rewrite lstrip_rstrip_fixed by apply lstrip_by_idem.
  apply rstrip_by_idem.
Qed.

Lemma split_topics_trimmed (cleaned : str) :
  Forall (fun t => t <> [] /\ Py.strip t = t) (split_topics cleaned).
Proof.
  apply Forall_forall. intros t Ht. unfold split_topics in Ht.
  apply filter_In in Ht as [Hin Hne]. split.
  - destruct t; [discriminate|congruence].
  - apply in_map_iff in Hin as (x & <- & _). apply strip_idem.
Qed.

(** C4.  In [TalkToYT-backend/app.py] the raw outputs [1. Cats, 2. Dogs] and
    [Cats, Dogs], and bulleted ones, parse to [Cats; Dogs]: the matches of
    the list-marker expression are removed, then the text is split on
    commas, each piece trimmed and the empty pieces dropped, in order.  The
    parsing of [api/wsgi_app.py] and [backend/wsgi_app.py] removes the bold
    markers and trims instead, and keeps a numbering.  In both, every topic
    is trimmed and not empty. *)
Theorem topic_parsing_markers :
  let cats_dogs := [lit "Cats"; lit "Dogs"] in
  (parse_topics_app (lit "1. Cats, 2. Dogs") = cats_dogs /\
   parse_topics_app (lit "Cats, Dogs") = cats_dogs /\
   parse_topics_app (lit "- Cats, Dogs") = cats_dogs /\
   parse_topics_app (lit "* Cats," ++ ["010"%char] ++ lit "* Dogs")
     = cats_dogs) /\
  (parse_topics_api (lit "Cats, Dogs") = cats_dogs /\
   parse_topics_api (lit "1. Cats, 2. Dogs")
     = [lit "1. Cats"; lit "2. Dogs"]) /\
  (forall raw : str,
     parse_topics_app raw
       = filter Py.truthy
           (map Py.strip (Py.split (lit ",") (sub_markers raw))) /\
     parse_topics_api raw
       = filter Py.truthy
           (map Py.strip (Py.split (lit ",") (clean_ai_response raw))) /\
     Forall (fun t => t <> [] /\ Py.strip t = t) (parse_topics_app raw) /\
     Forall (fun t => t <> [] /\ Py.strip t = t) (parse_topics_api raw)).
Proof.
  split; [repeat split|split; [repeat split|]].
  intros raw. split; [|split; [reflexivity|split]].
  - destruct raw; reflexivity.
  - unfold parse_topics_app. destruct (Py.truthy raw);
      [apply split_topics_trimmed|constructor].
  - apply split_topics_trimmed.
Qed.

(** The parsing of [api/wsgi_app.py] keeps the numbering. *)
Lemma topic_numbering_kept_counterexample :
  parse_topics_api (lit "1. Cats, 2. Dogs") <> [lit "Cats"; lit "Dogs"].
Proof. vm_compute. discriminate. Qed.

(** ** Timestamp rendering *)

Import Timestamp.

Section TimestampProofs.

Local Open Scope Q_scope.

Lemma floor_div_pos (q : Q) (m : positive) :
  Qfloor (q / inject_Z (Zpos m)) = (Qfloor q / Zpos m)%Z.
Proof.
  destruct q as [a b]. unfold Qdiv, Qinv, Qmult, inject_Z, Qfloor.
  cbn [Qnum Qden]. rewrite Z.mul_1_r, Pos2Z.inj_mul.
  symmetry. apply Z.div_div; lia.
Qed.

Lemma floor_modulo (q : Q) (m : positive) :
  Qfloor (modulo q (inject_Z (Zpos m))) = (Qfloor q mod Zpos m)%Z.
Proof.
  unfold modulo, floordiv. rewrite floor_div_pos.
  destruct q as [a b].
  unfold Qminus, Qplus, Qopp, Qmult, inject_Z, Qfloor. cbn [Qnum Qden].
  rewrite !Pos.mul_1_r, Z.mul_1_r.
  replace (- (Z.pos m * (a / Z.pos b / Z.pos m)) * Z.pos b)%Z
    with ((- (Z.pos m * (a / Z.pos b / Z.pos m))) * Z.pos b)%Z by lia.
  rewrite Z.div_add by lia.
  rewrite (Z.mod_eq (a / Z.pos b) (Z.pos m)) by lia. lia.
Qed.

Lemma int_of_floor (x : Q) : (0 <= Qfloor x)%Z -> int x = Qfloor x.
Proof.
  intros H. unfold int.
  assert (Hx : 0 <= x).
  { apply Qle_trans with (inject_Z (Qfloor x)); [|apply Qfloor_le].
    change 0 with (inject_Z 0). rewrite <- Zle_Qle. exact H. }
  apply Qle_bool_iff in Hx. rewrite Hx. reflexivity.
Qed.

Lemma floor_range (q : Q) (n : Z) :
  0 <= q -> q < inject_Z n -> (0 <= Qfloor q < n)%Z.
Proof.
  intros H0 Hn. split.
  - change 0%Z with (Qfloor 0). apply Qfloor_resp_le, H0.
  - rewrite Zlt_Qlt. apply Qle_lt_trans with q; [apply Qfloor_le|exact Hn].
Qed.

Lemma format_02_two_digits (n : Z) :
  (0 <= n < 100)%Z ->
  format_02 n = [digit_char (n / 10); digit_char (n mod 10)].
Proof.
  intros H.
  assert (E : n = Z.of_nat (Z.to_nat n)) by lia. rewrite E.
  assert (Hk : (Z.to_nat n < 100)%nat) by lia.
  generalize dependent (Z.to_nat n). clear. intros k _ Hk.
  do 100 (destruct k as [|k]; [reflexivity|]). lia.
Qed.

(** C9.  A value that [float] rejects renders as [[00:00:00]].  A number of
    seconds [0 <= s < 360000], fractional or not, renders as [[HH:MM:SS]]
    with two decimal digits each for [hours = floor(s/3600)],
    [minutes = floor((s mod 3600)/60)] and [seconds = floor(s mod 60)],
    which are the quotients and remainders of the whole seconds
    [floor s]. *)
Theorem timestamp_rendering :
  format_timestamp Invalid = Returned (lit "[00:00:00]") /\
  forall q : Q,
    0 <= q < 360000 ->
    let total := Qfloor q in
    let hours := (total / 3600)%Z in
    let minutes := ((total mod 3600) / 60)%Z in
    let secs := (total mod 60)%Z in
    (hours = Qfloor (q / 3600) /\
     minutes = Qfloor (modulo q 3600 / 60) /\
     secs = Qfloor (modulo q 60)) /\
    (0 <= hours < 100 /\ 0 <= minutes < 60 /\ 0 <= secs < 60)%Z /\
    format_timestamp (Finite q)
      = Returned
          (["["%char; digit_char (hours / 10); digit_char (hours mod 10);
            ":"%char; digit_char (minutes / 10); digit_char (minutes mod 10);
            ":"%char; digit_char (secs / 10); digit_char (secs mod 10);
            "]"%char]).
Proof.
  split; [reflexivity|]. intros q [H0 H1] total hours minutes secs.
  change 3600 with (inject_Z (Zpos 3600)) in *.
  change 60 with (inject_Z (Zpos 60)) in *.
  change 360000 with (inject_Z 360000) in H1.
  pose proof (floor_range q 360000 H0 H1) as Ht. fold total in Ht.
  assert (Eh : Qfloor (q / inject_Z (Zpos 3600)) = hours)
    by apply floor_div_pos.
  assert (Em : Qfloor (modulo q (inject_Z (Zpos 3600)) / inject_Z (Zpos 60))
                 = minutes).
  { rewrite floor_div_pos, floor_modulo. reflexivity. }
  assert (Es : Qfloor (modulo q (inject_Z (Zpos 60))) = secs)
    by apply floor_modulo.
  assert (Bh : (0 <= hours < 100)%Z).
  { unfold hours. split; [apply Z.div_pos; lia|].
    apply Z.div_lt_upper_bound; lia. }
  assert (Bm : (0 <= minutes < 60)%Z).
  { unfold minutes.
    pose proof (Z.mod_pos_bound total 3600 ltac:(lia)).
    split; [apply Z.div_pos; lia|apply Z.div_lt_upper_bound; lia]. }
  assert (Bs : (0 <= secs < 60)%Z)
    by (unfold secs; apply Z.mod_pos_bound; lia).
  split; [auto|]. split; [auto|].
  assert (Ih : int (floordiv q (inject_Z (Zpos 3600))) = hours).
  { unfold floordiv. rewrite Eh, int_of_floor; rewrite Qfloor_Z; lia. }
  assert (Im : int (floordiv (modulo q (inject_Z (Zpos 3600)))
                      (inject_Z (Zpos 60))) = minutes).
  { unfold floordiv at 1. rewrite Em, int_of_floor; rewrite Qfloor_Z; lia. }
  assert (Is : int (modulo q (inject_Z (Zpos 60))) = secs).
  { rewrite int_of_floor; rewrite Es; lia. }
  unfold format_timestamp.
  change 3600 with (inject_Z (Zpos 3600)).
  change 60 with (inject_Z (Zpos 60)).
  rewrite Ih, Im, Is.
  rewrite (format_02_two_digits hours), (format_02_two_digits minutes),
    (format_02_two_digits secs) by lia.
  reflexivity.
Qed.

Lemma timestamp_rendering_witness :
  0 <= 7325.5 < 360000 /\
  format_timestamp (Finite 7325.5) = Returned (lit "[02:02:05]").
Proof.
  split; [split; [discriminate|reflexivity]|].
  destruct timestamp_rendering as [_ H].
  destruct (H 7325.5) as (_ & _ & E);
    [split; [discriminate|reflexivity]|].
  exact E.
Defined.

(** A hundred hours render with a three-digit hours field. *)
Lemma timestamp_hundred_hours_counterexample :
  format_timestamp (Finite 360000) = Returned (lit "[100:00:00]") /\
  forall h1 h2 m1 m2 s1 s2 : ascii,
    format_timestamp (Finite 360000)
      <> Returned ["["%char; h1; h2; ":"%char; m1; m2; ":"%char; s1; s2;
                   "]"%char].
Proof.
  split; [reflexivity|]. intros. vm_compute. discriminate.
Qed.

End TimestampProofs.

(** ** Request orchestrators *)

Import Service.

Lemma chunks_not_empty (t : str) (M O : Z) :
  0 <= O < M -> t <> [] ->
  exists c cs, get_transcript_chunks t M O = Some (c :: cs).
Proof.
  intros HO Hne.
  destruct (get_transcript_chunks_spec t M O HO Hne) as (l & E & Hn & _).
  pose proof (cdiv_le (len t) (M - O) ltac:(lia) (text_len_pos t Hne)).
  destruct l as [|c cs]; [cbn in Hn; lia|].
  exists c, cs. exact E.
Qed.

(** C7.  With zero windows each summarize handler replies with its fixed message
    as a success, without a call of the service.  An empty or missing
    transcript does not get there: the handler answers it with the error
    400 [Video transcript is required]; and a transcript that is not empty
    always has a window. *)
Theorem summarize_zero_windows (model : service) :
  (App.summarize_chunks model []
     = (Json (lit "summary") (lit "No content to summarize."), []) /\
   Backend.summarize_chunks model []
     = (Json (lit "summary") (lit "There is no content to summarize."), [])
   /\
   Api.summarize_chunks model []
     = (Json (lit "summary") (lit "There is no content to summarize."), []))
  /\
  (forall video_transcript,
     given video_transcript = false ->
     let required := BadRequest (lit "Video transcript is required") in
     App.summarize_video model video_transcript = Some (required, []) /\
     Backend.summarize_video model video_transcript = Some (required, []) /\
     Api.summarize_video model video_transcript = Some (required, [])) /\
  (forall t : str,
     t <> [] ->
     (exists c cs,
        get_transcript_chunks t App.MAX_TRANSCRIPT_LENGTH_CHARS
          App.OVERLAP_CHARS = Some (c :: cs)) /\
     (exists c cs,
        get_transcript_chunks t Backend.MAX_TRANSCRIPT_LENGTH_CHARS
          Backend.OVERLAP_CHARS = Some (c :: cs))).
Proof.
  split; [repeat split|split].
  - intros vt Hvt required.
    unfold App.summarize_video, Backend.summarize_video,
      Api.summarize_video.
    rewrite Hvt. repeat split.
  - intros t Hne. split; apply chunks_not_empty; try assumption;
      unfold App.MAX_TRANSCRIPT_LENGTH_CHARS, App.OVERLAP_CHARS,
        Backend.MAX_TRANSCRIPT_LENGTH_CHARS, Backend.OVERLAP_CHARS; lia.
Qed.

Lemma summarize_zero_windows_witness :
  given (Some []) = false /\
  Api.summarize_video echo_service (Some [])
    = Some (BadRequest (lit "Video transcript is required"), []).
Proof.
  split; [reflexivity|].
  destruct (summarize_zero_windows echo_service) as (_ & H & _).
  apply (H (Some [])). reflexivity.
Defined.

(** An empty transcript is answered with an error in all three variants. *)
Lemma summarize_empty_transcript_counterexample :
  App.summarize_video echo_service (Some [])
    <> Some (Json (lit "summary") (lit "No content to summarize."), []) /\
  Backend.summarize_video echo_service (Some [])
    = Some (BadRequest (lit "Video transcript is required"), []) /\
  Api.summarize_video echo_service (Some [])
    <> Some (Json (lit "summary") (lit "There is no content to summarize."),
             []).
Proof. repeat split; vm_compute; discriminate. Qed.



(** Step 1 of the summarize handler of [api/wsgi_app.py], for any service:
    one call per window, in order, and the texts that are not empty. *)
Lemma api_summary_loop (model : service) :
  forall chunks acc sent,
    Api.summary_loop model chunks acc sent
    = (Returned
         (acc ++ filter Py.truthy
                   (map (fun ic => Api.gemini_text model (fst ic)
                                     (Api.summary_prompt (snd ic)))
                      (numbered (length sent) chunks))),
       sent ++ map Api.summary_prompt chunks).
Proof.
  induction chunks as [|c chunks IH]; intros acc sent.
  - cbn. rewrite !app_nil_r. reflexivity.
  - cbn [Api.summary_loop]. unfold gbind at 1, Api.call_gemini at 1.
    rewrite IH, length_app, Nat.add_1_r.
    unfold numbered. cbn [length seq combine map fst snd filter].
    destruct (Py.truthy _); rewrite <- ?app_assoc; reflexivity.
Qed.




Lemma substantial_truthy (x : str) :
  App.substantial x = true -> x <> [].
Proof. destruct x; [discriminate|congruence]. Qed.

Lemma not_substantial (x : str) :
  x = [] \/
  Py.contains (lit "not available") (Py.lower x) = true \/
  Py.contains (lit "cannot process") (Py.lower x) = true ->
  App.substantial x = false.
Proof.
  unfold App.substantial. intros [->|[H|H]]; [reflexivity|rewrite H..].
  - rewrite andb_false_r. reflexivity.
  - rewrite andb_false_r. reflexivity.
Qed.

(** The chat loop of [app.py] tries every window when each result is
    passed over, and breaks on none. *)
Lemma app_chat_loop_exhausted
    (str_format : str -> str -> outcome str) (model : service)
    (template : str) :
  (forall chunk, exists p, str_format template chunk = Returned p) ->
  (forall n p, exists r,
      model n p = Returned r /\
      (candidate_text r = None \/
       exists x, candidate_text r = Some x /\ App.substantial x = false)) ->
  forall chunks sent,
    exists sent',
      App.chat_loop str_format model template chunks sent
        = (Returned None, sent') /\
      length sent' = (length sent + length chunks)%nat.
Proof.
  intros Hf Hm. induction chunks as [|c chunks IH]; intros sent.
  - exists sent. split; [reflexivity|cbn; lia].
  - cbn [App.chat_loop]. unfold gbind at 1, lift.
    destruct (Hf c) as (p & Ep). rewrite Ep.
    unfold gbind at 1, generate_content.
    destruct (Hm (length sent) p) as (r & Er & Hr). rewrite Er.
    destruct (IH (sent ++ [p])) as (sent' & E' & L').
    exists sent'. rewrite length_app in L'. cbn in L'.
    split; [|cbn; lia].
    destruct Hr as [Hn|(x & Hx & Hs)]; [rewrite Hn|rewrite Hx, Hs]; exact E'.
Qed.

(** An answer the chat loop of [app.py] breaks on is not empty. *)
Lemma app_chat_loop_answer
    (str_format : str -> str -> outcome str) (model : service)
    (template : str) :
  forall chunks sent a sent',
    App.chat_loop str_format model template chunks sent
      = (Returned (Some a), sent') ->
    a <> [].
Proof.
  induction chunks as [|c chunks IH]; intros sent a sent' H.
  - discriminate.
  - cbn [App.chat_loop] in H. unfold gbind at 1, lift in H.
    destruct (str_format template c) as [p|]; [|discriminate].
    unfold gbind at 1, generate_content in H.
    destruct (model (length sent) p) as [r|]; [|discriminate].
    destruct (candidate_text r) as [x|]; [|exact (IH _ _ _ H)].
    destruct (App.substantial x) eqn:Es; [|exact (IH _ _ _ H)].
    injection H as <- _. apply substantial_truthy, Es.
Qed.

Lemma fallbacks_not_empty : App.fallback <> [] /\ Api.fallback <> [].
Proof. split; discriminate. Qed.

(** C5.  [TalkToYT-backend/app.py]: when no prompt formatting raises and every
    generation result is blocked, empty or holds [not available] or
    [cannot process] in any case, every window is tried and the response is
    the fixed fallback string; a response of this handler is never empty.
    [api/wsgi_app.py]: the single generation result is cleaned and
    returned, whatever phrase it holds, and the fixed apology string stands
    in for an empty one; the response is never empty.
    [backend/wsgi_app.py]: a blocked result gives the fixed apology
    string. *)
Theorem chat_fallback :
  (forall (str_format : str -> str -> outcome str) (model : service)
          (query transcript : str),
     query <> [] -> transcript <> [] ->
     (forall chunk, exists p,
         str_format (App.prompt_template query) chunk = Returned p) ->
     (forall n p, exists r,
         model n p = Returned r /\
         (candidate_text r = None \/
          exists x, candidate_text r = Some x /\
            (x = [] \/
             Py.contains (lit "not available") (Py.lower x) = true \/
             Py.contains (lit "cannot process") (Py.lower x) = true))) ->
     exists chunks sent,
       get_transcript_chunks transcript App.MAX_TRANSCRIPT_LENGTH_CHARS
         App.OVERLAP_CHARS = Some chunks /\
       App.chat_with_video str_format model (Some query) (Some transcript)
         = Some (Json (lit "response") App.fallback, sent) /\
       length sent = length chunks) /\
  (forall (str_format : str -> str -> outcome str) (model : service)
          (user_query video_transcript : option str) field value sent,
     App.chat_with_video str_format model user_query video_transcript
       = Some (Json field value, sent) ->
     value <> []) /\
  (forall (model : service) (user_query : option str)
          (video_transcript_list : list Api.segment)
          (video_transcript : option str) (conversation_history : list turn),
     given user_query = true ->
     video_transcript_list <> [] \/ given video_transcript = true ->
     let prompt :=
       Api.prompt_template (Api.history_string conversation_history)
         (Api.formatted_transcript video_transcript_list video_transcript)
         (match user_query with Some q => q | None => [] end) in
     let cleaned := clean_ai_response (Api.gemini_text model 0 prompt) in
     let response := if Py.truthy cleaned then cleaned else Api.fallback in
     Api.chat_with_video model user_query video_transcript_list
       video_transcript conversation_history
       = (Json (lit "response") response, [prompt]) /\
     response <> []) /\
  (forall (str_format : str -> str -> outcome str) (model : service)
          (query transcript : str) (conversation_history : list turn)
          (p : str) (r : gen_response),
     query <> [] -> transcript <> [] ->
     str_format
       (Backend.prompt_template (Backend.history_string conversation_history)
          query)
       (if len transcript >? 100000 then Py.slice transcript 0 100000
        else transcript) = Returned p ->
     model 0%nat p = Returned r ->
     candidate_text r = None ->
     Backend.chat_with_video str_format model (Some query) (Some transcript)
       conversation_history
       = (Json (lit "response") Backend.fallback, [p])).
Proof.
  split; [|split; [|split]].
  - intros str_format model query transcript Hq Ht Hf Hm.
    destruct (chunks_not_empty transcript App.MAX_TRANSCRIPT_LENGTH_CHARS
                App.OVERLAP_CHARS) as (c & cs & E);
      [unfold App.MAX_TRANSCRIPT_LENGTH_CHARS, App.OVERLAP_CHARS; lia
      |exact Ht|].
    destruct (app_chat_loop_exhausted str_format model
                (App.prompt_template query) Hf) with (chunks := c :: cs)
                (sent := @nil str) as (sent & El & Ll).
    { intros n p. destruct (Hm n p) as (r & Er & Hr).
      exists r. split; [exact Er|].
      destruct Hr as [Hn|(x & Hx & Hs)]; [left; exact Hn|right].
      exists x. split; [exact Hx|apply not_substantial, Hs]. }
    exists (c :: cs), sent. split; [exact E|]. split; [|exact Ll].
    unfold App.chat_with_video.
    destruct query; [congruence|]. destruct transcript; [congruence|].
    cbn [Py.truthy andb]. rewrite E, El. reflexivity.
  - intros str_format model user_query video_transcript field value sent H.
    unfold App.chat_with_video in H.
    destruct user_query as [q|]; [|discriminate].
    destruct video_transcript as [t|]; [|discriminate].
    destruct (Py.truthy q && Py.truthy t); [|discriminate].
    destruct (get_transcript_chunks t _ _) as [chunks|]; [|discriminate].
    destruct (App.chat_loop _ _ _ _ _) as [[[a|]|] sent0] eqn:El;
      [| |discriminate].
    + injection H as _ <- _. exact (app_chat_loop_answer _ _ _ _ _ _ _ El).
    + injection H as _ <- _. apply fallbacks_not_empty.
  - intros model user_query l vt history Hq Hl prompt cleaned response.
    split.
    + unfold Api.chat_with_video. rewrite Hq. cbn [negb].
      assert (Hg : match l with [] => true | _ => false end
                   && negb (given vt) = false).
      { destruct Hl as [Hl|Hl]; [destruct l; [congruence|reflexivity]|].
        rewrite Hl. apply andb_false_r. }
      rewrite Hg. reflexivity.
    + unfold response. destruct cleaned eqn:Ec; cbn [Py.truthy];
        [apply fallbacks_not_empty|discriminate].
  - intros str_format model query transcript history p r Hq Ht Hf Hm Hc.
    unfold Backend.chat_with_video.
    destruct query; [congruence|]. destruct transcript; [congruence|].
    cbn [Py.truthy andb]. unfold gbind at 1, lift. rewrite Hf.
    unfold gbind, generate_content. cbn [length]. rewrite Hm, Hc.
    reflexivity.
Qed.

Lemma chat_fallback_witness :
  exists sent,
    App.chat_with_video format_first
      (constant_service (lit "That is NOT AVAILABLE here."))
      (Some (lit "When?")) (Some (lit "Hello world."))
    = Some (Json (lit "response") App.fallback, sent) /\
    length sent = 1%nat.
Proof.
  destruct chat_fallback as (H & _).
  destruct (H format_first
              (constant_service (lit "That is NOT AVAILABLE here."))
              (lit "When?") (lit "Hello world."))
    as (chunks & sent & E & R & L).
  - discriminate.
  - discriminate.
  - intros chunk. eexists. vm_compute. reflexivity.
  - intros n p. eexists. split; [reflexivity|]. right.
    eexists. split; [reflexivity|]. right. left. reflexivity.
  - exists sent. split; [exact R|].
    rewrite L. vm_compute in E. injection E as <-. reflexivity.
Defined.

(** The single-call variant returns an answer that says [not available]
    as it is, not the fixed apology string. *)
Lemma chat_phrase_returned_counterexample :
  let answer := lit "It is not available." in
  fst (Api.chat_with_video (constant_service answer) (Some (lit "When?")) []
         (Some (lit "Hello world.")) [])
    = Json (lit "response") answer /\
  Py.contains (lit "not available") (Py.lower (clean_ai_response answer))
    = true /\
  answer <> Api.fallback.
Proof. vm_compute. repeat split; discriminate. Qed.

(** [backend/wsgi_app.py] returns an empty response when the cleaned text
    of the result is empty. *)
Lemma backend_chat_empty_response :
  fst (Backend.chat_with_video format_first (constant_service (lit "** **"))
         (Some (lit "When?")) (Some (lit "Hello world.")) [])
    = Json (lit "response") [].
Proof. reflexivity. Qed.

(** * Further properties *)

(** ** Windower *)

Lemma skipn_past_end {A : Type} (n : nat) (l : list A) :
  skipn (Nat.min n (length l)) l = skipn n l.
Proof.
  destruct (Nat.le_gt_cases n (length l)) as [H|H].
  - rewrite Nat.min_l by exact H. reflexivity.
  - rewrite Nat.min_r by lia. rewrite !skipn_all2 by lia. reflexivity.
Qed.

(** What is left of a window once its first [O] characters are dropped. *)
Lemma window_without_overlap (text : str) (pos e : Z) (O : nat) :
  0 <= pos <= e -> e <= len text ->
  skipn O (Py.slice text pos e)
  = firstn (Z.to_nat (e - pos) - O) (skipn (O + Z.to_nat pos) text).
Proof.
  intros H1 H2. rewrite slice_inside by assumption.
  rewrite skipn_firstn_comm, skipn_skipn. reflexivity.
Qed.

Lemma chunks_loop_reassemble (text : str) (M O : Z) :
  0 <= O < M ->
  forall (fuel : nat) (pos : Z) (chunks : list str),
    0 <= pos < len text ->
    chunks_loop fuel text M O pos = Some chunks ->
    concat (map (skipn (Z.to_nat O)) chunks)
    = skipn (Z.to_nat (Z.min (pos + O) (len text))) text.
Proof.
  intros HO. induction fuel as [|fuel IH]; intros pos chunks Hpos H;
    [discriminate|].
  cbn [chunks_loop] in H.
  destruct (Z.ltb_spec pos (len text)); [|lia].
  destruct (Z.geb_spec (pos + (M - O)) (len text)) as [Hge|Hlt].
  - injection H as <-. cbn [map concat]. rewrite app_nil_r.
    rewrite Z.min_r by lia.
    rewrite window_without_overlap by lia.
    rewrite firstn_all2 by (rewrite length_skipn; unfold len; lia).
    rewrite <- (skipn_past_end (Z.to_nat O + Z.to_nat pos)).
    f_equal. unfold len. lia.
  - destruct (chunks_loop fuel text M O (pos + (M - O))) as [l|] eqn:El;
      [|discriminate].
    injection H as <-. cbn [map concat].
    assert (Hpos' : 0 <= pos + (M - O) < len text) by lia.
    rewrite (IH _ _ Hpos' El).
    rewrite window_without_overlap by lia.
    replace (pos + (M - O) + O) with (pos + M) by lia.
    set (e := Z.min (pos + M) (len text)).
    destruct (Z_le_gt_dec (pos + O) (len text)) as [Hin|Hout].
    + rewrite Z.min_l by lia.
      replace (Z.to_nat e)
        with ((Z.to_nat (e - pos) - Z.to_nat O)
              + (Z.to_nat O + Z.to_nat pos))%nat by (unfold e; lia).
      rewrite <- (skipn_skipn (Z.to_nat (e - pos) - Z.to_nat O)
                    (Z.to_nat O + Z.to_nat pos) text).
      replace (Z.to_nat (pos + O)) with (Z.to_nat O + Z.to_nat pos)%nat
        by lia.
      apply firstn_skipn.
    + rewrite (Z.min_r (pos + O)) by lia.
      replace (Z.to_nat (e - pos) - Z.to_nat O)%nat with 0%nat
        by (unfold e; lia).
      cbn [firstn app]. f_equal. unfold e. lia.
Qed.

(** The transcript is put together again from its windows: the first window
    followed by every later one without its first [overlap_chars]
    characters. *)
Theorem windows_reassemble (text : str) (M O : Z) :
  0 <= O < M ->
  exists chunks,
    get_transcript_chunks text M O = Some chunks /\
    match chunks with
    | [] => text = []
    | first :: rest =>
        first ++ concat (map (skipn (Z.to_nat O)) rest) = text
    end.
Proof.
  intros HO.
  destruct (list_eq_dec ascii_dec text []) as [->|Hne];
    [exists []; split; reflexivity|].
  pose proof (text_len_pos text Hne) as HL.
  destruct (get_transcript_chunks_spec text M O HO Hne) as (l & El & _ & _).
  exists l. split; [exact El|].
  unfold get_transcript_chunks in El.
  destruct text as [|c0 t0] eqn:Et; [congruence|]. rewrite <- Et in *.
  cbn [chunks_loop] in El.
  destruct (Z.ltb_spec 0 (len text)); [|lia].
  destruct (Z.geb_spec (0 + (M - O)) (len text)) as [Hge|Hlt].
  - injection El as <-. cbn [map concat]. rewrite app_nil_r.
    rewrite Z.min_r by lia. rewrite slice_inside by lia.
    rewrite skipn_O. apply firstn_all2. unfold len. lia.
  - destruct (chunks_loop (length text) text M O (0 + (M - O))) as [l'|]
      eqn:El'; [|discriminate].
    injection El as <-.
    assert (Hpos' : 0 <= 0 + (M - O) < len text) by lia.
    rewrite (chunks_loop_reassemble text M O HO _ _ _ Hpos' El').
    replace (0 + (M - O) + O) with (0 + M) by lia.
    rewrite slice_inside by lia. rewrite skipn_O, Z.sub_0_r.
    apply firstn_skipn.
Qed.

Lemma windows_reassemble_witness :
  exists first rest,
    get_transcript_chunks (lit "0123456789ab") 5 2 = Some (first :: rest) /\
    first ++ concat (map (skipn 2) rest) = lit "0123456789ab".
Proof.
  destruct (windows_reassemble (lit "0123456789ab") 5 2 ltac:(lia))
    as (chunks & E & R).
  destruct chunks as [|first rest]; [discriminate R|].
  exists first, rest. split; [exact E|exact R].
Defined.

(** The number of windows is [ceil(L / (M - O))], and a window is [M]
    characters long whenever [M] characters are left from its start. *)
Theorem window_count_and_lengths (text : str) (M O : Z) :
  0 <= O < M -> text <> [] ->
  exists chunks,
    get_transcript_chunks text M O = Some chunks /\
    Z.of_nat (length chunks) = cdiv (len text) (M - O) /\
    forall k, (k < length chunks)%nat ->
      len (nth k chunks [])
      = Z.min M (len text - Z.of_nat k * (M - O)).
Proof.
  intros HO Hne.
  destruct (get_transcript_chunks_spec text M O HO Hne) as (l & El & Ll & Nl).
  exists l. split; [exact El|]. split; [exact Ll|].
  intros k Hk.
  pose proof (window_start_inside (len text) (M - O) (length l) k
                ltac:(lia) Ll Hk).
  rewrite (Nl k Hk), slice_length by lia. lia.
Qed.

Lemma window_count_and_lengths_witness :
  exists chunks,
    get_transcript_chunks (lit "0123456789ab") 5 2 = Some chunks /\
    Z.of_nat (length chunks) = 4.
Proof.
  destruct (window_count_and_lengths (lit "0123456789ab") 5 2 ltac:(lia))
    as (chunks & E & L & _); [discriminate|].
  exists chunks. split; [exact E|exact L].
Defined.

(** A text of at most [M - O] characters is its own single window. *)
Theorem short_text_single_window (text : str) (M O : Z) :
  0 <= O < M -> text <> [] -> len text <= M - O ->
  get_transcript_chunks text M O = Some [text].
Proof.
  intros HO Hne Hshort.
  pose proof (text_len_pos text Hne) as HL.
  unfold get_transcript_chunks. destruct text as [|c0 t0] eqn:Et;
    [congruence|]. rewrite <- Et in *.
  cbn [chunks_loop].
  destruct (Z.ltb_spec 0 (len text)); [|lia].
  destruct (Z.geb_spec (0 + (M - O)) (len text)); [|lia].
  rewrite Z.min_r by lia. rewrite slice_inside by lia.
  rewrite skipn_O, firstn_all2 by (unfold len; lia). reflexivity.
Qed.

Lemma short_text_single_window_witness :
  get_transcript_chunks (lit "Hello world.") 12000 500
    = Some [lit "Hello world."].
Proof.
  apply short_text_single_window; [lia|discriminate|vm_compute; discriminate].
Defined.

(** With [max_chars <= overlap_chars] the loop never leaves a text that is
    not empty, however many iterations it is given. *)
Theorem windowing_diverges (text : str) (M O : Z) (fuel : nat) :
  M <= O -> text <> [] -> chunks_loop fuel text M O 0 = None.
Proof.
  intros H Hne. apply chunks_loop_diverges; [lia|].
  apply text_len_pos, Hne.
Qed.

Lemma windowing_diverges_witness :
  chunks_loop 1000 (lit "abc") 5 5 0 = None.
Proof. apply windowing_diverges; [lia|discriminate]. Defined.

(** ** Identifier extractor *)

Lemma match_atoms_suffix (p : list atom) :
  forall s rest, match_atoms p s = Some rest -> exists m, s = m ++ rest.
Proof.
  induction p as [|a p IH]; intros s rest H.
  - injection H as <-. exists []. reflexivity.
  - destruct s as [|c s]; [discriminate|]. cbn in H.
    destruct (atom_matches a c); [|discriminate].
    destruct (IH s rest H) as (m & ->). exists (c :: m). reflexivity.
Qed.

Lemma capture_id_split (s g r : str) :
  capture_id s = Some (g, r) -> s = g ++ r /\ fullmatch_id g = true.
Proof.
  unfold capture_id. destruct (fullmatch_id (firstn 11 s)) eqn:E;
    [|discriminate].
  intros H.
  replace g with (firstn 11 s) by congruence.
  replace r with (skipn 11 s) by congruence.
  split; [symmetry; apply firstn_skipn|exact E].
Qed.

Lemma first_regex_at_holds (alts : list (list atom)) (s g : str) :
  first_regex_at alts s = Some g -> holds_id s g.
Proof.
  induction alts as [|p alts IH]; [discriminate|]. cbn.
  destruct (match_atoms p s) as [rest|] eqn:Em; [|exact IH].
  destruct (capture_id rest) as [[g' r]|] eqn:Ec; [|exact IH].
  intros H. injection H as ->.
  destruct (match_atoms_suffix p s rest Em) as (m & ->).
  destruct (capture_id_split rest g r Ec) as (-> & Hg).
  split; [exists m, r; reflexivity|exact Hg].
Qed.

Lemma second_regex_at_holds (s g : str) :
  second_regex_at s = Some g -> holds_id s g.
Proof.
  unfold second_regex_at.
  destruct (capture_id s) as [[g' r]|] eqn:Ec; [|discriminate].
  destruct (at_end r); [|discriminate].
  intros H. injection H as ->.
  destruct (capture_id_split s g r Ec) as (-> & Hg).
  split; [exists [], r; reflexivity|exact Hg].
Qed.

Lemma search_holds (match_at : str -> option str) :
  (forall s g, match_at s = Some g -> holds_id s g) ->
  forall s g, search match_at s = Some g -> holds_id s g.
Proof.
  intros Hm. induction s as [|c s IH]; intros g H; cbn [search] in H.
  - destruct (match_at []) eqn:E; [|discriminate].
    injection H as ->. apply Hm, E.
  - destruct (match_at (c :: s)) eqn:E.
    + injection H as ->. apply Hm, E.
    + destruct (IH g H) as ((a & b & ->) & Hg).
      split; [exists (c :: a), b; reflexivity|exact Hg].
Qed.

Lemma regex_fallback_holds (youtu_be : list atom) (url g : str) :
  regex_fallback youtu_be url = Some g -> holds_id url g.
Proof.
  unfold regex_fallback.
  destruct (search (first_regex_at (prefixes youtu_be)) url) eqn:E1.
  - intros H. injection H as ->.
    apply (search_holds _ (first_regex_at_holds _) _ _ E1).
  - apply (search_holds _ second_regex_at_holds).
Qed.

Lemma bind_returned {A B : Type} (m : outcome A) (f : A -> outcome B) (y : B) :
  bind m f = Returned y -> exists x, m = Returned x /\ f x = Returned y.
Proof.
  destruct m as [x|]; [|discriminate]. intros H. exists x. split;
    [reflexivity|exact H].
Qed.

(** Whatever either extractor returns is eleven characters of
    [[A-Za-z0-9_-]]; in [api/wsgi_app.py] whatever [urlparse] and
    [parse_qs] do. *)
Theorem extracted_id_is_valid :
  (forall url id : str,
     Extractor.extract_youtube_video_id url = Some id ->
     fullmatch_id id = true) /\
  (forall (urlparse : str -> outcome ParseResult)
          (parse_qs : str -> outcome (list (str * list str)))
          (url id : str),
     extract_youtube_video_id_api urlparse parse_qs url
       = Returned (Some id) ->
     fullmatch_id id = true).
Proof.
  split.
  - intros url id H. apply (regex_fallback_holds _ _ _ H).
  - intros urlparse parse_qs url id. unfold extract_youtube_video_id_api.
    destruct (fullmatch_id (Py.strip url)) eqn:Es.
    { intros H. injection H as <-. exact Es. }
    destruct (url_rules urlparse parse_qs (Py.strip url)) as [[vid|]|] eqn:Eu.
    + intros H. injection H as <-.
      unfold url_rules in Eu.
      apply bind_returned in Eu as (u & _ & Eu).
      apply bind_returned in Eu as (v & _ & Eu).
      destruct v as [v|]; [|discriminate].
      destruct (Py.truthy v && fullmatch_id v) eqn:Ev; [|discriminate].
      injection Eu as <-. apply andb_true_iff in Ev. apply Ev.
    + intros H. injection H as H. apply (regex_fallback_holds _ _ _ H).
    + intros H. injection H as H. apply (regex_fallback_holds _ _ _ H).
Qed.

Lemma extracted_id_is_valid_witness :
  Extractor.extract_youtube_video_id
    (lit "see https://youtu.be/dQw4w9WgXcQ?t=42 now")
    = Some (lit "dQw4w9WgXcQ") /\
  fullmatch_id (lit "dQw4w9WgXcQ") = true.
Proof.
  split; [reflexivity|].
  destruct extracted_id_is_valid as [H _].
  apply (H (lit "see https://youtu.be/dQw4w9WgXcQ?t=42 now")). reflexivity.
Defined.

Lemma search_finds (match_at : str -> option str) (a s : str) :
  match_at s <> None -> search match_at (a ++ s) <> None.
Proof.
  intros H. induction a as [|c a IH]; cbn [app].
  - destruct s; cbn [search]; destruct (match_at _); congruence.
  - cbn [search]. destruct (match_at (c :: a ++ s)); [discriminate|exact IH].
Qed.

Lemma holds_id_run (s g : str) :
  holds_id s g -> search id_run_at s <> None.
Proof.
  intros ((a & b & ->) & Hg). apply search_finds.
  unfold id_run_at, capture_id.
  pose proof Hg as Hl. unfold fullmatch_id in Hl.
  apply andb_true_iff in Hl as [Hl _]. apply Nat.eqb_eq in Hl.
  rewrite firstn_app, firstn_all2 by lia.
  replace (11 - length g)%nat with 0%nat by lia.
  cbn [firstn]. rewrite app_nil_r, Hg. discriminate.
Qed.

(** The identifier the regular expressions return stands in the input as it
    is; an input without eleven identifier characters in a row has no
    identifier. *)
Theorem extracted_id_occurs :
  (forall url id : str,
     Extractor.extract_youtube_video_id url = Some id ->
     exists before after, url = before ++ id ++ after) /\
  (forall url : str,
     search id_run_at url = None ->
     Extractor.extract_youtube_video_id url = None).
Proof.
  split.
  - intros url id H. apply (regex_fallback_holds _ _ _ H).
  - intros url Hn.
    destruct (Extractor.extract_youtube_video_id url) as [g|] eqn:E;
      [|reflexivity].
    exfalso. apply (holds_id_run url g); [|exact Hn].
    apply (regex_fallback_holds _ _ _ E).
Qed.

Lemma extracted_id_occurs_witness :
  search id_run_at (lit "https://www.youtube.com/feed/library") = None /\
  Extractor.extract_youtube_video_id
    (lit "https://www.youtube.com/feed/library") = None.
Proof.
  split; [reflexivity|].
  destruct extracted_id_occurs as [_ H]. apply H. reflexivity.
Defined.

Lemma fullmatch_id_length (g : str) :
  fullmatch_id g = true -> length g = 11%nat /\ forallb is_id_char g = true.
Proof.
  unfold fullmatch_id. intros H. apply andb_true_iff in H as [Hl Hc].
  apply Nat.eqb_eq in Hl. split; assumption.
Qed.

Lemma search_none_cons (match_at : str -> option str) (c : ascii) (s : str) :
  search match_at (c :: s) = None ->
  match_at (c :: s) = None /\ search match_at s = None.
Proof.
  cbn [search]. destruct (match_at (c :: s)); [discriminate|].
  intros H. split; [reflexivity|exact H].
Qed.

(** In [pre ++ id], where [pre] has no eleven identifier characters in a
    row and does not end in one, the only eleven identifier characters in
    a row are [id]. *)
Lemma only_id_run (id g : str) :
  fullmatch_id id = true ->
  forall pre : str,
    search id_run_at pre = None ->
    (forall p c, pre = p ++ [c] -> is_id_char c = false) ->
    holds_id (pre ++ id) g -> g = id.
Proof.
  intros Hid.
  destruct (fullmatch_id_length id Hid) as [Lid _].
  induction pre as [|c pre IH]; intros Hpre Hlast ((a & b & E) & Hg);
    destruct (fullmatch_id_length g Hg) as [Lg Cg].
  - cbn [app] in E. pose proof (f_equal (@length ascii) E) as L.
    rewrite !length_app in L.
    destruct a; [|cbn in L; lia]. destruct b; [|cbn in L; lia].
    rewrite app_nil_r in E. cbn in E. congruence.
  - apply search_none_cons in Hpre as [Hhere Hpre].
    destruct a as [|c' a].
    + exfalso. rewrite app_nil_l in E.
      remember (c :: pre) as pre0 eqn:Ep0.
      assert (Eg : g = firstn 11 (pre0 ++ id)).
      { rewrite E, firstn_app, firstn_all2 by lia.
        replace (11 - length g)%nat with 0%nat by lia.
        rewrite firstn_O, app_nil_r. reflexivity. }
      destruct (Nat.le_gt_cases 11 (length pre0)) as [Hlong|Hshort].
      * rewrite firstn_app in Eg.
        replace (11 - length pre0)%nat with 0%nat in Eg by lia.
        rewrite firstn_O, app_nil_r in Eg.
        unfold id_run_at, capture_id in Hhere.
        rewrite <- Eg, Hg in Hhere. discriminate.
      * destruct (exists_last (l := pre0)) as (p & x & Ep);
          [subst pre0; discriminate|].
        rewrite firstn_app, firstn_all2 in Eg by lia.
        rewrite forallb_forall in Cg.
        assert (Hx : is_id_char x = true).
        { apply Cg. rewrite Eg, Ep. apply in_or_app. left.
          apply in_or_app. right. left. reflexivity. }
        rewrite (Hlast p x Ep) in Hx. discriminate.
    + cbn [app] in E. injection E as <- E.
      apply IH; [exact Hpre| |split; [exists a, b; exact E|exact Hg]].
      intros p x ->. apply (Hlast (c :: p) x). reflexivity.
Qed.

Lemma extract_after_prefix (pre id : str) :
  fullmatch_id id = true ->
  search id_run_at pre = None ->
  (forall p c, pre = p ++ [c] -> is_id_char c = false) ->
  Extractor.extract_youtube_video_id (pre ++ id) = Some id.
Proof.
  intros Hid Hpre Hlast.
  destruct (Extractor.extract_youtube_video_id (pre ++ id)) as [g|] eqn:E.
  - f_equal. apply (only_id_run id g Hid pre Hpre Hlast).
    apply (regex_fallback_holds _ _ _ E).
  - exfalso. unfold Extractor.extract_youtube_video_id, regex_fallback in E.
    destruct (search (first_regex_at (prefixes youtu_be_dot)) (pre ++ id));
      [discriminate|].
    revert E. apply search_finds.
    destruct (fullmatch_id_length id Hid) as [Lid _].
    unfold second_regex_at, capture_id.
    rewrite firstn_all2, Hid, skipn_all2 by lia. discriminate.
Qed.

(** A URL that ends in an identifier yields it, when the text before the
    identifier does not end in an identifier character and has no eleven
    of them in a row. *)
Theorem url_ending_in_id (pre id : str) :
  fullmatch_id id = true ->
  search id_run_at pre = None ->
  (forall p c, pre = p ++ [c] -> is_id_char c = false) ->
  Extractor.extract_youtube_video_id (pre ++ id) = Some id.
Proof. apply extract_after_prefix. Qed.

Lemma url_ending_in_id_witness :
  Extractor.extract_youtube_video_id
    (lit "https://www.youtube.com/live/" ++ lit "dQw4w9WgXcQ")
    = Some (lit "dQw4w9WgXcQ").
Proof.
  apply url_ending_in_id; [reflexivity|reflexivity|].
  intros p c E. apply (f_equal (@rev ascii)) in E.
  rewrite rev_app_distr in E. cbn in E. injection E as <- _. reflexivity.
Defined.


(** The last character of a literal is not an identifier character. *)
Ltac last_char_not_id :=
  let p := fresh "p" in let c := fresh "c" in let E := fresh "E" in
  intros p c E; apply (f_equal (@rev ascii)) in E;
  rewrite rev_app_distr in E; cbn in E; injection E as <- _; reflexivity.

(** For every identifier, its watch, short-link, embed, [/v/] and shorts
    URLs, and the page URL of [get_video_metadata_from_webpage], yield the
    identifier itself. *)
Theorem url_shapes_yield_id (id : str) :
  fullmatch_id id = true ->
  Forall
    (fun shape => Extractor.extract_youtube_video_id (lit shape ++ id)
                  = Some id)
    [ "https://www.youtube.com/watch?v="; "https://youtu.be/";
      "https://www.youtube.com/embed/"; "https://www.youtube.com/v/";
      "https://www.youtube.com/shorts/";
      "https://m.youtube.com/watch?v="; "youtu.be/" ]%string.
Proof.
  intros Hid.
  repeat (apply Forall_cons;
          [apply extract_after_prefix;
           [exact Hid|reflexivity|last_char_not_id]|]).
  constructor.
Qed.

Lemma url_shapes_yield_id_witness :
  Extractor.extract_youtube_video_id
    (lit "https://www.youtube.com/watch?v=" ++ lit "dQw4w9WgXcQ")
    = Some (lit "dQw4w9WgXcQ").
Proof.
  pose proof (url_shapes_yield_id (lit "dQw4w9WgXcQ") eq_refl) as H.
  inversion H as [|? ? H1 _]. exact H1.
Defined.

Lemma lstrip_by_all (f : ascii -> bool) (w s : str) :
  forallb f w = true -> Py.lstrip_by f (w ++ s) = Py.lstrip_by f s.
Proof.
  induction w as [|c w IH]; [reflexivity|]. cbn.
  intros H. apply andb_true_iff in H as [Hc Hw]. rewrite Hc. apply IH, Hw.
Qed.

(** The extractor of [api/wsgi_app.py] trims: an identifier with white
    space around it is returned bare, whatever [urlparse] and [parse_qs]
    do. *)
Theorem padded_id_is_trimmed
    (urlparse : str -> outcome ParseResult)
    (parse_qs : str -> outcome (list (str * list str)))
    (before id after : str) :
  fullmatch_id id = true ->
  forallb Py.is_space before = true ->
  forallb Py.is_space after = true ->
  extract_youtube_video_id_api urlparse parse_qs (before ++ id ++ after)
    = Returned (Some id).
Proof.
  intros Hid Hb Ha.
  destruct (fullmatch_id_length id Hid) as [Lid Cid].
  assert (Hns : forallb (fun c => negb (Py.is_space c)) id = true).
  { apply forallb_forall. intros c Hc. rewrite forallb_forall in Cid.
    rewrite (id_char_not_space c (Cid c Hc)). reflexivity. }
  assert (Es : Py.strip (before ++ id ++ after) = id).
  { unfold Py.strip, Py.rstrip_by.
    rewrite lstrip_by_all by exact Hb.
    assert (El : Py.lstrip_by Py.is_space (id ++ after) = id ++ after).
    { destruct id as [|c id]; [discriminate|]. cbn in *.
      apply andb_true_iff in Hns as [Hc _].
      destruct (Py.is_space c); [discriminate|reflexivity]. }
    rewrite El, rev_app_distr, lstrip_by_all.
    - rewrite lstrip_by_head; [apply rev_involutive|].
      apply forallb_forall. intros c Hc. rewrite forallb_forall in Hns.
      apply Hns, in_rev, Hc.
    - apply forallb_forall. intros c Hc. rewrite forallb_forall in Ha.
      apply Ha, in_rev, Hc. }
  unfold extract_youtube_video_id_api. rewrite Es, Hid. reflexivity.
Qed.

Lemma padded_id_is_trimmed_witness :
  Urllib.extract_youtube_video_id (lit "  dQw4w9WgXcQ" ++ nl)
    = Returned (Some (lit "dQw4w9WgXcQ")).
Proof.
  apply (padded_id_is_trimmed Urllib.urlparse Urllib.parse_qs (lit "  ")
           (lit "dQw4w9WgXcQ") nl); reflexivity.
Defined.

(** ** Response normaliser *)

Lemma lstrip_by_suffix (f : ascii -> bool) (s : str) :
  exists w, s = w ++ Py.lstrip_by f s.
Proof.
  induction s as [|c s (w & IH)]; [exists []; reflexivity|]. cbn.
  destruct (f c); [|exists []; reflexivity].
  exists (c :: w). cbn. f_equal. exact IH.
Qed.

Lemma rstrip_by_prefix (f : ascii -> bool) (s : str) :
  exists w, s = Py.rstrip_by f s ++ w.
Proof.
  unfold Py.rstrip_by. destruct (lstrip_by_suffix f (rev s)) as (w & E).
  exists (rev w). rewrite <- rev_app_distr, <- E. symmetry.
  apply rev_involutive.
Qed.

(** The stripped string, with what was taken off at both ends. *)
Lemma strip_middle (s : str) : exists a b, s = a ++ Py.strip s ++ b.
Proof.
  unfold Py.strip.
  destruct (lstrip_by_suffix Py.is_space s) as (a & Ea).
  destruct (rstrip_by_prefix Py.is_space (Py.lstrip_by Py.is_space s))
    as (b & Eb).
  exists a, b. rewrite <- Eb. exact Ea.
Qed.

Lemma startswith_app (p s w : str) :
  Py.startswith p s = true -> Py.startswith p (s ++ w) = true.
Proof.
  revert s. induction p as [|a p IH]; intros s H; [reflexivity|].
  destruct s as [|c s]; [discriminate|]. cbn in *.
  apply andb_true_iff in H as [Hc Hs]. rewrite Hc. apply IH, Hs.
Qed.

Lemma contains_app_l (p a s : str) :
  Py.contains p s = true -> Py.contains p (a ++ s) = true.
Proof.
  intros H. induction a as [|c a IH]; [exact H|].
  cbn [app Py.contains]. rewrite IH. apply orb_true_r.
Qed.

Lemma contains_app_r (p s b : str) :
  Py.contains p s = true -> Py.contains p (s ++ b) = true.
Proof.
  induction s as [|c s IH]; intros H.
  - cbn in H. rewrite orb_false_r in H.
    destruct p; [|discriminate]. destruct b; reflexivity.
  - cbn [Py.contains] in H. apply orb_true_iff in H as [H|H].
    + pose proof (startswith_app p (c :: s) b H) as H'.
      cbn [app] in H'. cbn [app Py.contains]. rewrite H'. reflexivity.
    + cbn [app Py.contains]. rewrite (IH H). apply orb_true_r.
Qed.

(** A string that is in the stripped string is in the string. *)
Lemma contains_strip (p s : str) :
  Py.contains p s = false -> Py.contains p (Py.strip s) = false.
Proof.
  intros H. destruct (Py.contains p (Py.strip s)) eqn:E; [|reflexivity].
  destruct (strip_middle s) as (a & b & Es).
  rewrite Es in H. rewrite contains_app_l in H; [discriminate|].
  apply contains_app_r, E.
Qed.

Lemma startswith_two_stars (c : ascii) (rest : str) :
  Py.startswith two_stars (c :: rest)
  = Ascii.eqb "*" c
    && match rest with d :: _ => Ascii.eqb "*" d | [] => false end.
Proof.
  destruct rest; cbn; [reflexivity|rewrite andb_true_r; reflexivity].
Qed.

Lemma replace_stars_no_pair (n : nat) :
  forall s, (length s <= n)%nat ->
    Py.contains two_stars (Py.replace two_stars [] s) = false.
Proof.
  unfold Py.replace.
  induction n as [|n IH]; intros s Hn.
  - destruct s; [reflexivity|cbn in Hn; lia].
  - destruct s as [|c s]; [reflexivity|].
    cbn [Py.replace_from].
    destruct (Py.startswith two_stars (c :: s)) eqn:Es.
    + (* two stars are dropped *)
      destruct s as [|d s];
        [cbn in Es; rewrite andb_false_r in Es; discriminate|].
      cbn [length two_stars lit list_ascii_of_string Nat.sub app
           Py.replace_from].
      apply IH. cbn in Hn. lia.
    + cbn [app].
      assert (Ht : Py.contains two_stars (Py.replace_from two_stars [] 0 s)
                   = false) by (apply IH; cbn in Hn; lia).
      cbn [Py.contains]. rewrite Ht, orb_false_r.
      rewrite startswith_two_stars in *.
      destruct (Ascii.eqb "*" c); [|reflexivity].
      destruct s as [|d s]; [reflexivity|].
      cbn [andb] in *. cbn [Py.replace_from].
      rewrite startswith_two_stars, Es. cbn [andb]. exact Es.
Qed.

Lemma replace_without_pair (s : str) :
  Py.contains two_stars s = false -> Py.replace two_stars [] s = s.
Proof.
  unfold Py.replace. induction s as [|c s IH]; intros H; [reflexivity|].
  cbn [Py.contains] in H. apply orb_false_iff in H as [Hs Ht].
  cbn [Py.replace_from]. rewrite Hs. f_equal. apply IH, Ht.
Qed.

(** Cleaning twice is cleaning once; a cleaned text holds no [**] and no
    white space at either end. *)
Theorem clean_ai_response_idempotent (text : str) :
  clean_ai_response (clean_ai_response text) = clean_ai_response text /\
  Py.contains (lit "**") (clean_ai_response text) = false /\
  Py.strip (clean_ai_response text) = clean_ai_response text.
Proof.
  assert (Hc : Py.contains two_stars (clean_ai_response text) = false).
  { unfold clean_ai_response. apply contains_strip.
    apply (replace_stars_no_pair (length text)). lia. }
  split; [|split; [exact Hc|apply strip_idem]].
  unfold clean_ai_response at 1.
  change (lit "**") with two_stars.
  rewrite (replace_without_pair _ Hc). apply strip_idem.
Qed.

Lemma split_comma_step (cur : str) (c : ascii) (t : str) :
  Py.split_from (lit ",") 0 cur (c :: t)
  = if Ascii.eqb comma c
    then rev cur :: Py.split_from (lit ",") 0 [] t
    else Py.split_from (lit ",") 0 (c :: cur) t.
Proof.
  cbn. rewrite andb_true_r. reflexivity.
Qed.

Lemma split_comma_pieces (s : str) :
  forall cur, ~ In comma cur ->
    Forall (fun piece => ~ In comma piece)
      (Py.split_from (lit ",") 0 cur s).
Proof.
  induction s as [|c s IH]; intros cur Hcur.
  - constructor; [|constructor]. intros H. apply Hcur, in_rev, H.
  - rewrite split_comma_step. destruct (Ascii.eqb comma c) eqn:Ec.
    + constructor; [intros H; apply Hcur, in_rev, H|].
      apply IH. intros [].
    + apply IH. intros [H|H]; [|exact (Hcur H)].
      subst c. rewrite Ascii.eqb_refl in Ec. discriminate.
Qed.

Lemma in_strip (c : ascii) (s : str) : In c (Py.strip s) -> In c s.
Proof.
  intros H. destruct (strip_middle s) as (a & b & E). rewrite E.
  apply in_or_app. right. apply in_or_app. left. exact H.
Qed.

Lemma split_topics_no_comma (cleaned : str) :
  Forall (fun t => ~ In comma t) (split_topics cleaned).
Proof.
  apply Forall_forall. intros t Ht. unfold split_topics in Ht.
  apply filter_In in Ht as [Hin _].
  apply in_map_iff in Hin as (piece & <- & Hp).
  pose proof (split_comma_pieces cleaned [] (fun H => H)) as Hall.
  rewrite Forall_forall in Hall. intros Hc.
  apply (Hall piece Hp), in_strip, Hc.
Qed.

(** No topic holds a comma, in either parsing. *)
Theorem topics_hold_no_comma (raw : str) :
  Forall (fun t => ~ In ","%char t) (parse_topics_app raw) /\
  Forall (fun t => ~ In ","%char t) (parse_topics_api raw).
Proof.
  split; [|apply split_topics_no_comma].
  unfold parse_topics_app. destruct (Py.truthy raw);
    [apply split_topics_no_comma|constructor].
Qed.

Lemma split_comma_app (piece : str) :
  ~ In comma piece ->
  forall cur rest,
    Py.split_from (lit ",") 0 cur (piece ++ rest)
    = Py.split_from (lit ",") 0 (rev piece ++ cur) rest.
Proof.
  induction piece as [|c piece IH]; intros Hp cur rest; [reflexivity|].
  cbn [app]. rewrite split_comma_step.
  destruct (Ascii.eqb comma c) eqn:Ec.
  - exfalso. apply Ascii.eqb_eq in Ec. apply Hp. left. symmetry. exact Ec.
  - rewrite IH by (intros H; apply Hp; right; exact H).
    cbn [rev]. rewrite <- app_assoc. reflexivity.
Qed.

(** Splitting on commas what was joined with commas gives the pieces
    back. *)
Lemma split_join_comma (pieces : list str) (first : str) :
  Forall (fun piece => ~ In comma piece) (first :: pieces) ->
  Py.split (lit ",") (Py.join (lit ",") (first :: pieces))
  = first :: pieces.
Proof.
  unfold Py.split. revert first.
  induction pieces as [|second pieces IH]; intros first H.
  - cbn [Py.join]. rewrite <- (app_nil_r first) at 1.
    rewrite split_comma_app by (inversion H; assumption).
    cbn. rewrite app_nil_r, rev_involutive. reflexivity.
  - inversion H as [|? ? Hf Hrest]; subst.
    cbn [Py.join]. rewrite split_comma_app by exact Hf.
    cbn [lit list_ascii_of_string app]. rewrite split_comma_step.
    change (Ascii.eqb comma ",") with true. cbn iota.
    rewrite app_nil_r, rev_involutive. f_equal.
    apply IH, Hrest.
Qed.

Lemma join_cons (sep first second : str) (rest : list str) :
  Py.join sep (first :: second :: rest)
  = first ++ sep ++ Py.join sep (second :: rest).
Proof. reflexivity. Qed.

Lemma join_comma_space (first : str) (rest : list str) :
  Py.join (lit ", ") (first :: rest)
  = Py.join (lit ",") (first :: map (app (lit " ")) rest).
Proof.
  revert first. induction rest as [|second rest IH]; intros first;
    [reflexivity|].
  cbn [map]. rewrite !join_cons, IH.
  cbn [lit list_ascii_of_string app]. f_equal.
  destruct rest as [|third rest]; [reflexivity|].
  cbn [map]. rewrite !join_cons. cbn [lit list_ascii_of_string app].
  reflexivity.
Qed.

Lemma lstrip_by_length (f : ascii -> bool) (s : str) :
  (length (Py.lstrip_by f s) <= length s)%nat.
Proof.
  destruct (lstrip_by_suffix f s) as (w & E). rewrite E at 2.
  rewrite length_app. lia.
Qed.

Lemma rstrip_by_length (f : ascii -> bool) (s : str) :
  (length (Py.rstrip_by f s) <= length s)%nat.
Proof.
  unfold Py.rstrip_by. rewrite length_rev.
  pose proof (lstrip_by_length f (rev s)) as H.
  rewrite length_rev in H. exact H.
Qed.

(** A string is trimmed when it neither starts nor ends with white
    space. *)
Lemma strip_fixed_ends (s : str) :
  (forall c t, s = c :: t -> Py.is_space c = false) ->
  (forall p c, s = p ++ [c] -> Py.is_space c = false) ->
  Py.strip s = s.
Proof.
  intros Hhead Hlast. unfold Py.strip, Py.rstrip_by.
  assert (El : Py.lstrip_by Py.is_space s = s).
  { destruct s as [|c t]; [reflexivity|]. cbn.
    rewrite (Hhead c t eq_refl). reflexivity. }
  rewrite El. destruct (rev s) as [|c r] eqn:Er.
  - cbn. apply (f_equal (@rev ascii)) in Er.
    rewrite rev_involutive in Er. symmetry. exact Er.
  - assert (Es : s = rev r ++ [c]).
    { rewrite <- (rev_involutive s), Er. reflexivity. }
    cbn. rewrite (Hlast _ _ Es). cbn. symmetry. exact Es.
Qed.

Lemma trimmed_ends (t : str) :
  Py.strip t = t ->
  (forall c r, t = c :: r -> Py.is_space c = false) /\
  (forall p c, t = p ++ [c] -> Py.is_space c = false).
Proof.
  intros Ht. split.
  - intros c r ->. destruct (Py.is_space c) eqn:Ec; [|reflexivity].
    exfalso. apply (f_equal (@length ascii)) in Ht.
    unfold Py.strip in Ht. cbn [Py.lstrip_by] in Ht. rewrite Ec in Ht.
    pose proof (rstrip_by_length Py.is_space
                  (Py.lstrip_by Py.is_space r)).
    pose proof (lstrip_by_length Py.is_space r). cbn in Ht. lia.
  - intros p c ->. destruct (Py.is_space c) eqn:Ec; [|reflexivity].
    exfalso. apply (f_equal (@length ascii)) in Ht.
    unfold Py.strip in Ht.
    destruct (lstrip_by_suffix Py.is_space (p ++ [c])) as (w & Ew).
    destruct (Py.lstrip_by Py.is_space (p ++ [c])) as [|x u] eqn:El.
    + cbn in Ht. rewrite length_app in Ht. cbn in Ht. lia.
    + destruct (exists_last (l := x :: u)) as (u' & z & Eu);
        [discriminate|].
      rewrite Eu in Ew, Ht. rewrite app_assoc in Ew.
      apply app_inj_tail in Ew as [_ <-].
      unfold Py.rstrip_by in Ht. rewrite rev_app_distr in Ht.
      cbn [rev app Py.lstrip_by] in Ht. rewrite Ec in Ht.
      rewrite length_rev in Ht.
      pose proof (lstrip_by_length Py.is_space (rev u')) as L1.
      rewrite length_rev in L1.
      assert (L2 : (length (u' ++ [c]) <= length (p ++ [c]))%nat).
      { rewrite <- Eu, <- El. apply lstrip_by_length. }
      rewrite !length_app in *. cbn in *. lia.
Qed.

Lemma join_last (sep : str) (topics : list str) (first : str) :
  Forall (fun t => t <> [] /\ Py.strip t = t) (first :: topics) ->
  forall p c, Py.join sep (first :: topics) = p ++ [c] ->
    Py.is_space c = false.
Proof.
  revert first. induction topics as [|second topics IH]; intros first H p c E.
  - inversion H as [|? ? [_ Hf] _]; subst.
    apply (proj2 (trimmed_ends first Hf) p c E).
  - inversion H as [|? ? _ Hrest]; subst.
    rewrite join_cons in E.
    assert (Hne : Py.join sep (second :: topics) <> []).
    { inversion Hrest as [|? ? [Hs _] _]; subst.
      destruct topics; [exact Hs|]. rewrite join_cons.
      destruct second; [congruence|discriminate]. }
    destruct (exists_last Hne) as (p' & c' & E').
    rewrite E', !app_assoc in E. apply app_inj_tail in E as [_ <-].
    apply (IH second Hrest p' c' E').
Qed.

Lemma strip_after_spaces (w s : str) :
  forallb Py.is_space w = true -> Py.strip (w ++ s) = Py.strip s.
Proof.
  intros H. unfold Py.strip. rewrite lstrip_by_all by exact H. reflexivity.
Qed.

Lemma no_star_no_pair (s : str) :
  ~ In "*"%char s -> Py.contains two_stars s = false.
Proof.
  induction s as [|c s IH]; intros H; [reflexivity|].
  cbn [Py.contains]. rewrite startswith_two_stars.
  rewrite IH by (intros Hs; apply H; right; exact Hs).
  destruct (Ascii.eqb "*" c) eqn:Ec; [|reflexivity].
  exfalso. apply Ascii.eqb_eq in Ec. apply H. left. symmetry. exact Ec.
Qed.

Lemma in_join (sep : str) (c : ascii) (pieces : list str) :
  In c (Py.join sep pieces) ->
  In c sep \/ exists piece, In piece pieces /\ In c piece.
Proof.
  induction pieces as [|first pieces IH]; [intros []|].
  destruct pieces as [|second pieces].
  - cbn [Py.join]. intros H. right. exists first. split;
      [left; reflexivity|exact H].
  - rewrite join_cons. intros H. apply in_app_or in H as [H|H].
    + right. exists first. split; [left; reflexivity|exact H].
    + apply in_app_or in H as [H|H]; [left; exact H|].
      destruct (IH H) as [Hs|(piece & Hp & Hc)]; [left; exact Hs|].
      right. exists piece. split; [right; exact Hp|exact Hc].
Qed.

(** Topics that are trimmed, not empty and free of commas and asterisks,
    written as a list separated by a comma and a space, are parsed back
    into themselves by [api/wsgi_app.py] and [backend/wsgi_app.py]. *)
Theorem topics_round_trip (topics : list str) :
  Forall (fun t => t <> [] /\ Py.strip t = t /\
                   ~ In ","%char t /\ ~ In "*"%char t) topics ->
  parse_topics_api (Py.join (lit ", ") topics) = topics.
Proof.
  intros H. destruct topics as [|first rest]; [reflexivity|].
  assert (Htrim : Forall (fun t => t <> [] /\ Py.strip t = t)
                    (first :: rest)).
  { eapply Forall_impl; [|exact H]. cbn. intros t (H1 & H2 & _).
    split; assumption. }
  set (joined := Py.join (lit ", ") (first :: rest)).
  assert (Hstar : Py.contains two_stars joined = false).
  { apply no_star_no_pair. intros Hin.
    destruct (in_join _ _ _ Hin) as [Hs|(t & Ht & Hc)].
    - cbn in Hs. destruct Hs as [Hs|[Hs|[]]]; discriminate.
    - rewrite Forall_forall in H. apply (H t Ht), Hc. }
  assert (Hjoined : Py.strip joined = joined).
  { apply strip_fixed_ends.
    - intros c t E. inversion H as [|? ? (Hne & Hs & _) _]; subst.
      destruct first as [|c0 first]; [congruence|].
      assert (c = c0).
      { unfold joined in E. destruct rest;
          [|rewrite join_cons in E]; cbn [Py.join app] in E; congruence. }
      subst c0. apply (proj1 (trimmed_ends _ Hs) c first eq_refl).
    - apply (join_last _ _ _ Htrim). }
  unfold parse_topics_api, clean_ai_response.
  change (lit "**") with two_stars.
  rewrite (replace_without_pair _ Hstar), Hjoined.
  unfold joined, split_topics. rewrite join_comma_space.
  rewrite split_join_comma.
  - cbn [map filter]. inversion H as [|? ? (Hne & Hs & _) Hrest]; subst.
    rewrite Hs. destruct first as [|c0 first0] eqn:Ef; [congruence|].
    cbn [Py.truthy]. f_equal. rewrite <- Ef in *. clear Ef.
    clear - Hrest. induction rest as [|t rest IH]; [reflexivity|].
    inversion Hrest as [|? ? (Hne & Hs & _) Hrest']; subst.
    cbn [map filter]. rewrite strip_after_spaces by reflexivity.
    rewrite Hs. destruct t; [congruence|]. cbn [Py.truthy].
    f_equal. apply IH, Hrest'.
  - inversion H as [|? ? (_ & _ & Hc & _) Hrest]; subst.
    constructor; [exact Hc|].
    apply Forall_forall. intros piece Hp.
    apply in_map_iff in Hp as (t & <- & Ht).
    rewrite Forall_forall in Hrest.
    destruct (Hrest t Ht) as (_ & _ & Hc' & _).
    intros Hin. apply in_app_or in Hin as [Hin|Hin]; [|exact (Hc' Hin)].
    cbn in Hin. destruct Hin as [Hin|[]]. discriminate.
Qed.

Lemma topics_round_trip_witness :
  parse_topics_api (lit "Cats, Large dogs, Fish")
    = [lit "Cats"; lit "Large dogs"; lit "Fish"].
Proof.
  apply (topics_round_trip [lit "Cats"; lit "Large dogs"; lit "Fish"]).
  repeat constructor; try discriminate;
    cbn; intros H; repeat (destruct H as [H|H]; [discriminate|]);
    exact H.
Defined.

(** ** Request orchestrators: further properties *)

(** The summarize handler of [api/wsgi_app.py] replies to every request,
    whatever the service does, and never with an error 500: a failing or
    blocked call counts as a window without text.  On a transcript it
    makes one call per window, then one synthesis call if more than one
    window gave a text; when no window gave one it replies with its fixed
    message. *)
Theorem api_summarize_orchestration (model : service) (t : str) :
  t <> [] ->
  exists chunks,
    get_transcript_chunks t Api.MAX_TRANSCRIPT_LENGTH_CHARS
      Api.OVERLAP_CHARS = Some chunks /\
    let summaries :=
      filter Py.truthy
        (map (fun ic => Api.gemini_text model (fst ic)
                          (Api.summary_prompt (snd ic)))
           (numbered 0 chunks)) in
    let synthesis := Api.final_prompt (Api.combined summaries) in
    Api.summarize_video model (Some t)
    = Some
        (match summaries with
         | [] =>
             (Json (lit "summary")
                (lit "I could not generate a summary for this video."),
              map Api.summary_prompt chunks)
         | [s] =>
             (Json (lit "summary") (Api.finish s),
              map Api.summary_prompt chunks)
         | _ =>
             (Json (lit "summary")
                (Api.finish
                   (Api.gemini_text model (length chunks) synthesis)),
              map Api.summary_prompt chunks ++ [synthesis])
         end).
Proof.
  intros Hne.
  destruct (chunks_not_empty t Api.MAX_TRANSCRIPT_LENGTH_CHARS
              Api.OVERLAP_CHARS) as (c & cs & E);
    [unfold Api.MAX_TRANSCRIPT_LENGTH_CHARS, Api.OVERLAP_CHARS; lia
    |exact Hne|].
  exists (c :: cs). split; [exact E|]. intros summaries synthesis.
  unfold Api.summarize_video.
  assert (Hg : given (Some t) = true) by (destruct t; [congruence|reflexivity]).
  rewrite Hg, E. f_equal.
  unfold Api.summarize_chunks. unfold gbind at 1.
  rewrite (api_summary_loop model (c :: cs) [] []).
  cbn [app length]. fold summaries.
  destruct summaries as [|s1 [|s2 rest]] eqn:Es; [reflexivity|reflexivity|].
  cbn [length Nat.ltb Nat.leb]. unfold Api.call_gemini.
  rewrite length_map. reflexivity.
Qed.

Lemma api_summarize_orchestration_witness :
  Api.summarize_video (fun _ _ => Raised) (Some (lit "Hello world."))
  = Some (Json (lit "summary")
            (lit "I could not generate a summary for this video."),
          [Api.summary_prompt (lit "Hello world.")]).
Proof.
  destruct (api_summarize_orchestration (fun _ _ => Raised)
              (lit "Hello world.")) as (chunks & E & R); [discriminate|].
  rewrite R. vm_compute in E. injection E as <-. reflexivity.
Defined.

(** The chat handler of [api/wsgi_app.py] never replies with an error 500
    and never makes more than one call. *)
Theorem api_chat_absorbs_failures (model : service)
    (user_query : option str) (video_transcript_list : list Api.segment)
    (video_transcript : option str) (conversation_history : list turn) :
  fst (Api.chat_with_video model user_query video_transcript_list
         video_transcript conversation_history) <> ServerError /\
  (length (snd (Api.chat_with_video model user_query video_transcript_list
                  video_transcript conversation_history)) <= 1)%nat.
Proof.
  unfold Api.chat_with_video.
  destruct (negb (given user_query)); [split; [discriminate|cbn; lia]|].
  destruct (_ && _); split; try discriminate; cbn; lia.
Qed.

(** Only the last twelve turns of the conversation reach the prompt of the
    chat handler of [api/wsgi_app.py]. *)
Theorem api_chat_recent_history (model : service)
    (user_query : option str) (video_transcript_list : list Api.segment)
    (video_transcript : option str) (older recent : list turn) :
  length recent = 12%nat ->
  Api.chat_with_video model user_query video_transcript_list
    video_transcript (older ++ recent)
  = Api.chat_with_video model user_query video_transcript_list
      video_transcript recent.
Proof.
  intros H.
  assert (E : Api.history_string (older ++ recent)
              = Api.history_string recent).
  { unfold Api.history_string. rewrite length_app, H.
    replace (length older + 12 - 12)%nat with (length older) by lia.
    rewrite Nat.sub_diag, skipn_app, skipn_all, Nat.sub_diag. reflexivity. }
  unfold Api.chat_with_video. rewrite E. reflexivity.
Qed.

Lemma api_chat_recent_history_witness :
  let recent := repeat {| role := Some (lit "user"); said := lit "Hi" |} 12 in
  let older := [{| role := None; said := lit "Long ago" |}] in
  Api.chat_with_video echo_service (Some (lit "When?")) []
    (Some (lit "Hello world.")) (older ++ recent)
  = Api.chat_with_video echo_service (Some (lit "When?")) []
      (Some (lit "Hello world.")) recent.
Proof.
  intros recent older. apply api_chat_recent_history. reflexivity.
Defined.

Lemma firstn_truthy (n : nat) (t : str) :
  (0 < n)%nat -> Py.truthy (firstn n t) = Py.truthy t.
Proof.
  intros Hn. destruct n; [lia|]. destruct t; reflexivity.
Qed.

(** The chat handler of [backend/wsgi_app.py] reads the first 100000
    characters of the transcript only. *)
Theorem backend_chat_reads_prefix
    (str_format : str -> str -> outcome str) (model : service)
    (user_query : option str) (t : str) (conversation_history : list turn) :
  Backend.chat_with_video str_format model user_query (Some t)
    conversation_history
  = Backend.chat_with_video str_format model user_query
      (Some (firstn (Z.to_nat 100000) t)) conversation_history.
Proof.
  unfold Backend.chat_with_video.
  destruct user_query as [q|]; [|reflexivity].
  rewrite firstn_truthy by lia.
  destruct (Py.truthy q && Py.truthy t); [|reflexivity].
  assert (E : (if len t >? 100000 then Py.slice t 0 100000 else t)
              = (if len (firstn (Z.to_nat 100000) t) >? 100000
                 then Py.slice (firstn (Z.to_nat 100000) t) 0 100000
                 else firstn (Z.to_nat 100000) t)).
  { assert (Hl : len (firstn (Z.to_nat 100000) t) <= 100000).
    { unfold len. rewrite length_firstn. lia. }
    destruct (Z.gtb_spec (len (firstn (Z.to_nat 100000) t)) 100000);
      [lia|].
    destruct (Z.gtb_spec (len t) 100000) as [Hlong|Hshort].
    - rewrite slice_inside by lia. rewrite skipn_O, Z.sub_0_r. reflexivity.
    - symmetry. apply firstn_all2. unfold len in Hshort. lia. }
  rewrite E. reflexivity.
Qed.

(** The chat loop of [app.py] when window [k] is the first with a
    substantial answer: the answer is returned as it is, and the windows
    after it are not tried. *)
Lemma app_chat_loop_first
    (str_format : str -> str -> outcome str) (model : service)
    (template : str) :
  forall chunks prompts,
    Forall2 (fun chunk p => str_format template chunk = Returned p)
      chunks prompts ->
    forall (k : nat) (sent : list str) (r : gen_response) (x : str),
      (k < length prompts)%nat ->
      (forall n, (n < k)%nat ->
         exists r',
           model (length sent + n)%nat (nth n prompts []) = Returned r' /\
           (candidate_text r' = None \/
            exists y, candidate_text r' = Some y /\
                      App.substantial y = false)) ->
      model (length sent + k)%nat (nth k prompts []) = Returned r ->
      candidate_text r = Some x ->
      App.substantial x = true ->
      App.chat_loop str_format model template chunks sent
      = (Returned (Some x), sent ++ firstn (S k) prompts).
Proof.
  intros chunks prompts HF.
  induction HF as [|c p chunks prompts Hp HF IH];
    intros k sent r x Hk Hbefore Hat Hr Hx; [cbn in Hk; lia|].
  cbn [App.chat_loop]. unfold gbind at 1, lift. rewrite Hp.
  unfold gbind at 1, generate_content.
  destruct k as [|k].
  - rewrite Nat.add_0_r in Hat. cbn [nth] in Hat.
    rewrite Hat, Hr, Hx. reflexivity.
  - destruct (Hbefore 0%nat ltac:(lia)) as (r0 & E0 & H0).
    rewrite Nat.add_0_r in E0. cbn [nth] in E0. rewrite E0.
    assert (Enext :
      App.chat_loop str_format model template chunks (sent ++ [p])
      = (Returned (Some x), (sent ++ [p]) ++ firstn (S k) prompts)).
    { apply (IH k (sent ++ [p]) r x).
      - cbn in Hk. lia.
      - intros n Hn. destruct (Hbefore (S n) ltac:(lia)) as (r' & E' & H').
        exists r'. split; [|exact H'].
        rewrite length_app. cbn [length nth] in *.
        replace (length sent + 1 + n)%nat with (length sent + S n)%nat
          by lia.
        exact E'.
      - rewrite length_app. cbn [length nth] in *.
        replace (length sent + 1 + k)%nat with (length sent + S k)%nat
          by lia.
        exact Hat.
      - exact Hr.
      - exact Hx. }
    rewrite <- app_assoc in Enext. cbn [app] in Enext.
    destruct H0 as [Hn|(y & Hy & Hs)];
      [rewrite Hn|rewrite Hy, Hs]; exact Enext.
Qed.

(** The chat handler of [app.py] answers with the first substantial
    result, as it is: when windows 0 to [k - 1] give results it passes
    over and window [k] gives a substantial text, that text is the
    response and exactly [k + 1] calls are made. *)
Theorem app_chat_first_answer
    (str_format : str -> str -> outcome str) (model : service)
    (query transcript : str) (chunks prompts : list str)
    (k : nat) (r : gen_response) (x : str) :
  query <> [] -> transcript <> [] ->
  get_transcript_chunks transcript App.MAX_TRANSCRIPT_LENGTH_CHARS
    App.OVERLAP_CHARS = Some chunks ->
  Forall2 (fun chunk p =>
             str_format (App.prompt_template query) chunk = Returned p)
    chunks prompts ->
  (k < length prompts)%nat ->
  (forall n, (n < k)%nat ->
     exists r',
       model n (nth n prompts []) = Returned r' /\
       (candidate_text r' = None \/
        exists y, candidate_text r' = Some y /\
          (y = [] \/
           Py.contains (lit "not available") (Py.lower y) = true \/
           Py.contains (lit "cannot process") (Py.lower y) = true))) ->
  model k (nth k prompts []) = Returned r ->
  candidate_text r = Some x ->
  x <> [] ->
  Py.contains (lit "not available") (Py.lower x) = false ->
  Py.contains (lit "cannot process") (Py.lower x) = false ->
  App.chat_with_video str_format model (Some query) (Some transcript)
  = Some (Json (lit "response") x, firstn (S k) prompts).
Proof.
  intros Hq Ht Ec HF Hk Hbefore Hat Hr Hx H1 H2.
  unfold App.chat_with_video.
  destruct query; [congruence|]. destruct transcript; [congruence|].
  cbn [Py.truthy andb]. rewrite Ec.
  destruct (chunks_not_empty (a0 :: transcript)
              App.MAX_TRANSCRIPT_LENGTH_CHARS App.OVERLAP_CHARS)
    as (c & cs & E');
    [unfold App.MAX_TRANSCRIPT_LENGTH_CHARS, App.OVERLAP_CHARS; lia
    |discriminate|].
  rewrite Ec in E'. injection E' as ->.
  rewrite (app_chat_loop_first str_format model _ _ _ HF k [] r x Hk).
  - reflexivity.
  - intros n Hn. destruct (Hbefore n Hn) as (r' & E' & H').
    exists r'. split; [exact E'|].
    destruct H' as [Hnone|(y & Hy & Hs)]; [left; exact Hnone|right].
    exists y. split; [exact Hy|apply not_substantial, Hs].
  - exact Hat.
  - exact Hr.
  - unfold App.substantial. rewrite H1, H2.
    destruct x; [congruence|reflexivity].
Qed.

Lemma app_chat_first_answer_witness :
  exists p,
    App.chat_with_video format_first
      (constant_service (lit "At [00:01:15] the speaker says hello."))
      (Some (lit "When?")) (Some (lit "Hello world."))
    = Some (Json (lit "response")
              (lit "At [00:01:15] the speaker says hello."), [p]).
Proof.
  eexists.
  apply (app_chat_first_answer format_first
           (constant_service (lit "At [00:01:15] the speaker says hello."))
           (lit "When?") (lit "Hello world.") [lit "Hello world."] [_] 0
           {| candidate_text :=
                Some (lit "At [00:01:15] the speaker says hello.");
              text_accessor :=
                Returned (lit "At [00:01:15] the speaker says hello.") |});
    try reflexivity; try discriminate.
  - constructor; [vm_compute; reflexivity|constructor].
  - cbn. lia.
  - intros n Hn. lia.
Defined.

Lemma backend_summary_loop_step (model : service) (c : str)
    (chunks acc sent : list str) :
  Backend.summary_loop model (c :: chunks) acc sent
  = match model (length sent) (Backend.summary_prompt c) with
    | Returned r =>
        match text_accessor r with
        | Returned text =>
            Backend.summary_loop model chunks
              (if Py.truthy text then acc ++ [text] else acc)
              (sent ++ [Backend.summary_prompt c])
        | Raised => (Raised, sent ++ [Backend.summary_prompt c])
        end
    | Raised => (Raised, sent ++ [Backend.summary_prompt c])
    end.
Proof.
  cbn [Backend.summary_loop]. unfold gbind, generate_content, lift.
  destruct (model _ _) as [r|]; [destruct (text_accessor r)|]; reflexivity.
Qed.

(** Step 1 of the summarize handler of [backend/wsgi_app.py], for any
    service: the prompts sent are those of the first [k] windows, in order,
    and all of them when the step ends without raising. *)
Lemma backend_summary_loop_sent (model : service) :
  forall chunks acc sent,
    exists k,
      (k <= length chunks)%nat /\
      snd (Backend.summary_loop model chunks acc sent)
        = sent ++ firstn k (map Backend.summary_prompt chunks) /\
      (forall summaries,
         fst (Backend.summary_loop model chunks acc sent)
           = Returned summaries ->
         k = length chunks).
Proof.
  induction chunks as [|c chunks IH]; intros acc sent.
  - exists 0%nat. cbn. rewrite app_nil_r. repeat split. lia.
  - rewrite backend_summary_loop_step.
    destruct (model (length sent) (Backend.summary_prompt c)) as [r|].
    + destruct (text_accessor r) as [text|].
      * destruct (IH (if Py.truthy text then acc ++ [text] else acc)
                    (sent ++ [Backend.summary_prompt c]))
          as (k & Hk & Hs & Hr).
        exists (S k). split; [cbn; lia|]. split.
        -- rewrite Hs, <- app_assoc. reflexivity.
        -- intros summaries H. cbn [length]. f_equal. apply (Hr _ H).
      * exists 1%nat. split; [cbn; lia|]. split; [reflexivity|].
        intros summaries H. discriminate.
    + exists 1%nat. split; [cbn; lia|]. split; [reflexivity|].
      intros summaries H. discriminate.
Qed.

(** Whatever the service does, the summarize handler of
    [backend/wsgi_app.py] calls it for the windows in order, at most once
    each, and at most once more for the synthesis. *)
Theorem backend_summarize_calls (model : service) (t : str) :
  t <> [] ->
  exists chunks r sent,
    get_transcript_chunks t Backend.MAX_TRANSCRIPT_LENGTH_CHARS
      Backend.OVERLAP_CHARS = Some chunks /\
    Backend.summarize_video model (Some t) = Some (r, sent) /\
    ((exists k, (k <= length chunks)%nat /\
                sent = firstn k (map Backend.summary_prompt chunks)) \/
     (exists summaries,
        sent = map Backend.summary_prompt chunks
               ++ [Backend.final_prompt (Backend.combined summaries)])).
Proof.
  intros Hne.
  destruct (chunks_not_empty t Backend.MAX_TRANSCRIPT_LENGTH_CHARS
              Backend.OVERLAP_CHARS) as (c & cs & E);
    [unfold Backend.MAX_TRANSCRIPT_LENGTH_CHARS, Backend.OVERLAP_CHARS; lia
    |exact Hne|].
  exists (c :: cs).
  unfold Backend.summarize_video.
  assert (Hg : given (Some t) = true) by (destruct t; [congruence|reflexivity]).
  rewrite Hg, E. unfold Backend.summarize_chunks. unfold gbind at 1.
  destruct (backend_summary_loop_sent model (c :: cs) [] [])
    as (k & Hk & Hs & Hr).
  destruct (Backend.summary_loop model (c :: cs) [] []) as [[summaries|] s1]
    eqn:El; cbn [fst snd app] in Hs, Hr.
  - specialize (Hr summaries eq_refl). subst k s1.
    rewrite firstn_all2 by (rewrite length_map; lia).
    destruct (1 <? length summaries)%nat.
    + unfold gbind, generate_content, lift.
      destruct (model _ _) as [resp|];
        [destruct (text_accessor resp)|];
        eexists; eexists; (split; [reflexivity|]);
        (split; [reflexivity|]); right; eexists; reflexivity.
    + eexists; eexists. split; [reflexivity|]. split; [reflexivity|].
      left. exists (length (c :: cs)). split; [lia|].
      rewrite firstn_all2 by (rewrite length_map; lia). reflexivity.
  - subst s1. eexists; eexists. split; [reflexivity|].
    split; [reflexivity|]. left. exists k. split; [exact Hk|reflexivity].
Qed.

Lemma backend_summarize_calls_witness :
  Backend.summarize_video (fun _ _ => Raised) (Some (lit "Hello world."))
  = Some (ServerError, [Backend.summary_prompt (lit "Hello world.")]).
Proof.
  destruct (backend_summarize_calls (fun _ _ => Raised)
              (lit "Hello world.")) as (chunks & r & sent & E & R & _);
    [discriminate|].
  rewrite R. vm_compute in R. injection R as <- <-. reflexivity.
Defined.

(** ** Topic extraction handlers *)

Lemma slice_from_start (t : str) (n : Z) :
  0 <= n -> Py.slice t 0 n = firstn (Z.to_nat n) t.
Proof.
  intros Hn. unfold Py.slice, Py.norm_index.
  destruct (Z.ltb_spec 0 0); [lia|]. destruct (Z.ltb_spec n 0); [lia|].
  assert (Hlen : 0 <= len t) by (unfold len; lia).
  rewrite (Z.min_l 0) by lia. rewrite Z.sub_0_r. cbn [Z.to_nat skipn].
  destruct (Z_le_gt_dec n (len t)) as [Hin|Hout].
  - rewrite Z.min_l by lia. reflexivity.
  - rewrite Z.min_r by lia. unfold len in *.
    rewrite !firstn_all2 by lia. reflexivity.
Qed.

Lemma slice_of_prefix (t : str) (n : Z) :
  0 <= n -> Py.slice (firstn (Z.to_nat n) t) 0 n = Py.slice t 0 n.
Proof.
  intros Hn. rewrite !slice_from_start by exact Hn.
  rewrite firstn_firstn, Nat.min_id. reflexivity.
Qed.

Lemma capped_of_prefix (t : str) (n : Z) :
  0 <= n ->
  (if len (firstn (Z.to_nat n) t) >? n
   then Py.slice (firstn (Z.to_nat n) t) 0 n else firstn (Z.to_nat n) t)
  = (if len t >? n then Py.slice t 0 n else t).
Proof.
  intros Hn.
  assert (Hl : len (firstn (Z.to_nat n) t) <= n).
  { unfold len. rewrite length_firstn. lia. }
  destruct (Z.gtb_spec (len (firstn (Z.to_nat n) t)) n); [lia|].
  destruct (Z.gtb_spec (len t) n) as [Hlong|Hshort].
  - symmetry. apply slice_from_start, Hn.
  - apply firstn_all2. unfold len in Hshort. lia.
Qed.

(** Each of the three topic handlers reads the first
    [MAX_TRANSCRIPT_LENGTH_CHARS] characters of the transcript only. *)
Theorem extract_topics_reads_prefix (model : service) (t : str) :
  TopicsApp.extract_topics model (Some t)
    = TopicsApp.extract_topics model (Some (firstn (Z.to_nat 10000) t)) /\
  TopicsBackend.extract_topics model (Some t)
    = TopicsBackend.extract_topics model (Some (firstn (Z.to_nat 12000) t))
  /\
  TopicsApi.extract_topics model (Some t)
    = TopicsApi.extract_topics model (Some (firstn (Z.to_nat 12000) t)).
Proof.
  unfold TopicsApp.extract_topics, TopicsBackend.extract_topics,
    TopicsApi.extract_topics, given.
  unfold App.MAX_TRANSCRIPT_LENGTH_CHARS,
    Backend.MAX_TRANSCRIPT_LENGTH_CHARS, Api.MAX_TRANSCRIPT_LENGTH_CHARS.
  rewrite !firstn_truthy by lia.
  rewrite (capped_of_prefix t 10000 ltac:(lia)).
  rewrite (slice_of_prefix t 12000 ltac:(lia)).
  repeat split.
Qed.

Lemma split_topics_well_formed (cleaned : str) :
  Forall (fun t => t <> [] /\ Py.strip t = t /\ ~ In ","%char t)
    (split_topics cleaned).
Proof.
  pose proof (split_topics_trimmed cleaned) as Ht.
  pose proof (split_topics_no_comma cleaned) as Hc.
  rewrite Forall_forall in *. intros t Hin.
  destruct (Ht t Hin) as [H1 H2].
  split; [exact H1|]. split; [exact H2|apply (Hc t Hin)].
Qed.

Lemma parsed_topics_well_formed (raw : str) :
  Forall (fun t => t <> [] /\ Py.strip t = t /\ ~ In ","%char t)
    (parse_topics_app raw) /\
  Forall (fun t => t <> [] /\ Py.strip t = t /\ ~ In ","%char t)
    (parse_topics_api raw).
Proof.
  split; [|apply split_topics_well_formed].
  unfold parse_topics_app. destruct (Py.truthy raw);
    [apply split_topics_well_formed|constructor].
Qed.

(** On a transcript each topic handler makes exactly one call, on the
    prompt of the first [MAX_TRANSCRIPT_LENGTH_CHARS] characters.  The
    handler of [api/wsgi_app.py] always replies with a list of topics; a
    blocked result in [app.py] and a failing call in [api/wsgi_app.py] give
    the empty list, not an error.  Every topic of a reply is trimmed, not
    empty and free of commas. *)
Theorem extract_topics_replies (model : service) (t : str) :
  t <> [] ->
  (snd (TopicsApp.extract_topics model (Some t))
     = [TopicsApp.prompt (firstn (Z.to_nat 10000) t)] /\
   snd (TopicsBackend.extract_topics model (Some t))
     = [TopicsBackend.prompt (firstn (Z.to_nat 12000) t)] /\
   snd (TopicsApi.extract_topics model (Some t))
     = [TopicsApi.prompt (firstn (Z.to_nat 12000) t)]) /\
  (exists topics,
     fst (TopicsApi.extract_topics model (Some t)) = Topics topics) /\
  (forall r,
     model 0%nat (TopicsApp.prompt (firstn (Z.to_nat 10000) t)) = Returned r ->
     candidate_text r = None ->
     fst (TopicsApp.extract_topics model (Some t)) = Topics []) /\
  (model 0%nat (TopicsApi.prompt (firstn (Z.to_nat 12000) t)) = Raised ->
   fst (TopicsApi.extract_topics model (Some t)) = Topics []) /\
  (forall topics,
     fst (TopicsApp.extract_topics model (Some t)) = Topics topics \/
     fst (TopicsBackend.extract_topics model (Some t)) = Topics topics \/
     fst (TopicsApi.extract_topics model (Some t)) = Topics topics ->
     Forall (fun x => x <> [] /\ Py.strip x = x /\ ~ In ","%char x) topics).
Proof.
  intros Hne.
  assert (Hg : given (Some t) = true) by (destruct t; [congruence|reflexivity]).
  assert (Ea : (if len t >? 10000 then Py.slice t 0 10000 else t)
               = firstn (Z.to_nat 10000) t).
  { destruct (Z.gtb_spec (len t) 10000) as [Hlong|Hshort].
    - apply slice_from_start. lia.
    - symmetry. apply firstn_all2. unfold len in Hshort. lia. }
  unfold TopicsApp.extract_topics, TopicsBackend.extract_topics,
    TopicsApi.extract_topics.
  unfold App.MAX_TRANSCRIPT_LENGTH_CHARS,
    Backend.MAX_TRANSCRIPT_LENGTH_CHARS, Api.MAX_TRANSCRIPT_LENGTH_CHARS.
  rewrite Hg, Ea, (slice_from_start t 12000) by lia.
  unfold gbind, generate_content, lift, Api.call_gemini.
  cbn [length app fst snd].
  split; [|split; [|split; [|split]]].
  - split; [|split].
    + destruct (model _ _); reflexivity.
    + destruct (model _ _) as [r|]; [destruct (text_accessor r)|];
        reflexivity.
    + reflexivity.
  - eexists. reflexivity.
  - intros r Hr Hc. rewrite Hr. cbn [fst]. rewrite Hc. reflexivity.
  - intros Hr. unfold Api.gemini_text. rewrite Hr. reflexivity.
  - intros topics [H|[H|H]].
    + destruct (model _ _) as [r|]; [|discriminate].
      cbn [fst] in H. injection H as <-.
      apply parsed_topics_well_formed.
    + destruct (model _ _) as [r|]; [|discriminate].
      destruct (text_accessor r); [|discriminate].
      cbn [fst] in H. injection H as <-.
      apply parsed_topics_well_formed.
    + injection H as <-. apply parsed_topics_well_formed.
Qed.

Lemma extract_topics_replies_witness :
  TopicsApi.extract_topics (constant_service (lit "**Cats**, Dogs"))
    (Some (lit "Hello world."))
  = (Topics [lit "Cats"; lit "Dogs"],
     [TopicsApi.prompt (lit "Hello world.")]).
Proof.
  destruct (extract_topics_replies (constant_service (lit "**Cats**, Dogs"))
              (lit "Hello world.")) as ((_ & _ & Hs) & _); [discriminate|].
  apply injective_projections; [reflexivity|exact Hs].
Defined.

(** ** Metadata scraping and [extract_video_info] *)

Import Metadata.

Lemma find_index_split (f : ascii -> bool) (s : str) (i : nat) :
  Urllib.find_index f s = Some i ->
  exists x, s = firstn i s ++ x :: skipn (S i) s /\ f x = true /\
            forallb (fun c => negb (f c)) (firstn i s) = true.
Proof.
  revert i. induction s as [|c s IH]; intros i H; [discriminate|].
  cbn [Urllib.find_index] in H. destruct (f c) eqn:Ec.
  - injection H as <-. exists c. repeat split. exact Ec.
  - destruct (Urllib.find_index f s) as [j|]; [|discriminate].
    injection H as <-. destruct (IH j eq_refl) as (x & Es & Hx & Hall).
    exists x. cbn [firstn skipn forallb app]. rewrite Ec, Hall.
    repeat split; [f_equal; exact Es|exact Hx].
Qed.

Lemma startswith_split (p s : str) :
  Py.startswith p s = true -> s = p ++ skipn (length p) s.
Proof.
  revert s. induction p as [|a p IH]; intros s H; [reflexivity|].
  destruct s as [|c s]; [discriminate|]. cbn in H.
  apply andb_true_iff in H as [Hc Hs]. apply Ascii.eqb_eq in Hc. subst c.
  cbn. f_equal. apply IH, Hs.
Qed.

(** What the tag expression captures stands in the text between the
    opening of the tag and a double quote, and holds no double quote. *)
Lemma meta_content_at_sound (tag s v : str) :
  meta_content_at tag s = Some v ->
  (exists after, s = tag ++ v ++ quote :: after) /\ ~ In quote v.
Proof.
  unfold meta_content_at. destruct (Py.startswith tag s) eqn:Es;
    [|discriminate].
  destruct (Urllib.find_index (Ascii.eqb quote) (skipn (length tag) s))
    as [i|] eqn:Ei; [|discriminate].
  intros H. injection H as <-.
  destruct (find_index_split _ _ _ Ei) as (x & Er & Hx & Hall).
  apply Ascii.eqb_eq in Hx. subst x. split.
  - exists (skipn (S i) (skipn (length tag) s)).
    rewrite <- Er. apply startswith_split, Es.
  - intros Hin. rewrite forallb_forall in Hall.
    specialize (Hall quote Hin). rewrite Ascii.eqb_refl in Hall.
    discriminate.
Qed.

Lemma search_meta_sound (tag html v : str) :
  search (meta_content_at tag) html = Some v ->
  (exists before after, html = before ++ tag ++ v ++ quote :: after) /\
  ~ In quote v.
Proof.
  induction html as [|c html IH]; cbn [search].
  - destruct (meta_content_at tag []) eqn:E; [|discriminate].
    intros H. injection H as ->.
    destruct (meta_content_at_sound _ _ _ E) as ((after & Ea) & Hq).
    split; [exists [], after; exact Ea|exact Hq].
  - destruct (meta_content_at tag (c :: html)) eqn:E.
    + intros H. injection H as ->.
      destruct (meta_content_at_sound _ _ _ E) as ((after & Ea) & Hq).
      split; [exists [], after; exact Ea|exact Hq].
    + intros H. destruct (IH H) as ((before & after & Ea) & Hq).
      split; [exists (c :: before), after; rewrite Ea; reflexivity|exact Hq].
Qed.

Lemma search_meta_absent (tag html : str) :
  Py.contains tag html = false -> search (meta_content_at tag) html = None.
Proof.
  induction html as [|c html IH]; intros H; cbn [Py.contains] in H;
    apply orb_false_iff in H as [Hs Ht]; cbn [search];
    unfold meta_content_at at 1; rewrite Hs; [reflexivity|apply IH, Ht].
Qed.

(** What the scraping reads off a page: a value that is not the default
    one is the content of a tag of the page, up to its closing double
    quote, and a page without the opening of the tag gives the default. *)
Lemma scraped_found (html : str) (unknown_title no_description : string) :
  let found (name : string) (default : string) (value : str) :=
    (value = lit default \/
     ((exists before after,
         html = before ++ og_tag name ++ value ++ quote :: after) /\
      ~ In quote value)) /\
    (Py.contains (og_tag name) html = false -> value = lit default) in
  found "og:title"%string unknown_title
    (fst (scraped html unknown_title no_description)) /\
  found "og:description"%string no_description
    (snd (scraped html unknown_title no_description)).
Proof.
  intros found. unfold scraped, found, or_default. cbn [fst snd]. split.
  - split.
    + destruct (search (meta_content_at (og_tag "og:title")) html) as [v|]
        eqn:E; [right; apply (search_meta_sound _ _ _ E)|left; reflexivity].
    + intros H. rewrite (search_meta_absent _ _ H). reflexivity.
  - split.
    + destruct (search (meta_content_at (og_tag "og:description")) html)
        as [v|] eqn:E;
        [right; apply (search_meta_sound _ _ _ E)|left; reflexivity].
    + intros H. rewrite (search_meta_absent _ _ H). reflexivity.
Qed.

(** The scraping of [backend/wsgi_app.py] and [api/wsgi_app.py].  On a page
    both return the same two values: a title that is not the default one is
    the content of an [og:title] tag of the page, up to its closing double
    quote; a page without the opening of the tag gives the default title;
    and the same holds for the description.  When the request fails with a
    [RequestException] both return the two error placeholders.  When it
    fails with any other exception, [api/wsgi_app.py] returns the
    placeholders and the exception leaves the function of
    [backend/wsgi_app.py]. *)
Theorem scraped_metadata (fetch : str -> fetched) (video_id : str) :
  let found (name : string) (default : string) (value html : str) :=
    (value = lit default \/
     ((exists before after,
         html = before ++ og_tag name ++ value ++ quote :: after) /\
      ~ In quote value)) /\
    (Py.contains (og_tag name) html = false -> value = lit default) in
  let errors :=
    (lit "Error fetching title", lit "Error fetching description") in
  match fetch (page_url video_id) with
  | Page html =>
      get_video_metadata_from_webpage fetch video_id
        = Returned (get_video_metadata_from_webpage_api fetch video_id) /\
      found "og:title"%string "Unknown Title"%string
        (fst (get_video_metadata_from_webpage_api fetch video_id)) html /\
      found "og:description"%string "No Description Available"%string
        (snd (get_video_metadata_from_webpage_api fetch video_id)) html
  | RequestException =>
      get_video_metadata_from_webpage fetch video_id = Returned errors /\
      get_video_metadata_from_webpage_api fetch video_id = errors
  | OtherException =>
      get_video_metadata_from_webpage fetch video_id = Raised /\
      get_video_metadata_from_webpage_api fetch video_id = errors
  end.
Proof.
  intros found errors.
  unfold get_video_metadata_from_webpage, get_video_metadata_from_webpage_api.
  destruct (fetch (page_url video_id)) as [html| |];
    [|split; reflexivity..].
  split; [reflexivity|].
  apply (scraped_found html "Unknown Title" "No Description Available").
Qed.

Lemma scraped_metadata_witness :
  get_video_metadata_from_webpage
    (fun _ => Page (lit "<html><head></head></html>"))
    (lit "dQw4w9WgXcQ")
  = Returned (lit "Unknown Title", lit "No Description Available").
Proof.
  pose proof (scraped_metadata
                (fun _ => Page (lit "<html><head></head></html>"))
                (lit "dQw4w9WgXcQ")) as H.
  cbv beta zeta iota in H. destruct H as (E & [_ Ht] & [_ Hd]).
  rewrite E. apply (f_equal Returned).
  apply injective_projections; [apply Ht|apply Hd]; reflexivity.
Defined.

Lemma in_replace_from (old new : str) :
  forall (s : str) (skip : nat) (c : ascii),
    In c (Py.replace_from old new skip s) -> In c new \/ In c s.
Proof.
  induction s as [|x s IH]; intros skip c H; [destruct H|].
  cbn [Py.replace_from] in H. destruct skip as [|k].
  - destruct (Py.startswith old (x :: s)).
    + apply in_app_or in H as [H|H]; [left; exact H|].
      destruct (IH _ _ H) as [Hn|Hs]; [left; exact Hn|right; right; exact Hs].
    + destruct H as [H|H]; [right; left; exact H|].
      destruct (IH _ _ H) as [Hn|Hs]; [left; exact Hn|right; right; exact Hs].
  - destruct (IH _ _ H) as [Hn|Hs]; [left; exact Hn|right; right; exact Hs].
Qed.

Lemma sanitize_no_quote (s : str) :
  ~ In quote s -> ~ In quote (sanitize s).
Proof.
  intros Hs H. unfold sanitize, Py.replace in H.
  apply in_replace_from in H as [H|H].
  - cbn in H. destruct H as [H|[]]. discriminate.
  - apply in_replace_from in H as [H|H]; [|exact (Hs H)].
    cbn in H. destruct H as [H|[]]. discriminate.
Qed.

Lemma not_in_literal (s : string) :
  existsb (Ascii.eqb quote) (lit s) = false -> ~ In quote (lit s).
Proof.
  intros H Hin.
  assert (E : existsb (Ascii.eqb quote) (lit s) = true).
  { apply existsb_exists. exists quote. split;
      [exact Hin|apply Ascii.eqb_refl]. }
  congruence.
Qed.

Lemma scraped_no_quote (html : str) (unknown_title no_description : string) :
  existsb (Ascii.eqb quote) (lit unknown_title) = false ->
  existsb (Ascii.eqb quote) (lit no_description) = false ->
  ~ In quote (fst (scraped html unknown_title no_description)) /\
  ~ In quote (snd (scraped html unknown_title no_description)).
Proof.
  intros Ht Hd.
  assert (Hv : forall name default,
            existsb (Ascii.eqb quote) (lit default) = false ->
            ~ In quote
                (or_default (search (meta_content_at (og_tag name)) html)
                   default)).
  { intros name default Hdef. unfold or_default.
    destruct (search (meta_content_at (og_tag name)) html) as [v|] eqn:E.
    - apply (search_meta_sound _ _ _ E).
    - apply not_in_literal, Hdef. }
  unfold scraped. cbn [fst snd]. split; apply Hv; assumption.
Qed.

Lemma placeholders_no_quote :
  ~ In quote (fst placeholders) /\ ~ In quote (snd placeholders).
Proof. split; apply not_in_literal; reflexivity. Qed.

(** No title and no description that the scraping returns, in any variant
    and on any page, holds a double quote. *)
Theorem scraped_metadata_has_no_quote
    (fetch : str -> fetched) (video_id : str) :
  (forall title description,
     get_video_metadata_from_webpage fetch video_id
       = Returned (title, description) ->
     ~ In quote title /\ ~ In quote description) /\
  ~ In quote (fst (get_video_metadata_from_webpage_api fetch video_id)) /\
  ~ In quote (snd (get_video_metadata_from_webpage_api fetch video_id)) /\
  ~ In quote (fst (get_video_metadata_from_webpage_app fetch video_id)) /\
  ~ In quote (snd (get_video_metadata_from_webpage_app fetch video_id)).
Proof.
  pose proof placeholders_no_quote as [Hp1 Hp2].
  unfold get_video_metadata_from_webpage,
    get_video_metadata_from_webpage_api,
    get_video_metadata_from_webpage_app.
  destruct (fetch (page_url video_id)) as [html| |].
  - destruct (scraped_no_quote html "Unknown Title"
                "No Description Available" eq_refl eq_refl) as [H1 H2].
    destruct (scraped_no_quote html "Unknown Title (Scraped)"
                "No Description Available (Scraped)" eq_refl eq_refl)
      as [H3 H4].
    split; [|split; [exact H1|split; [exact H2|]]].
    + intros title description E.
      assert (Es : scraped html "Unknown Title" "No Description Available"
                   = (title, description)) by congruence.
      rewrite Es in H1, H2. split; [exact H1|exact H2].
    + destruct (scraped html _ _) as [t d]. cbn [fst snd] in *.
      split; apply sanitize_no_quote; assumption.
  - split; [|repeat split; assumption].
    intros title description E.
    assert (Es : placeholders = (title, description)) by congruence.
    rewrite Es in Hp1, Hp2. split; [exact Hp1|exact Hp2].
  - split; [|repeat split; assumption].
    intros title description E. discriminate E.
Qed.

Lemma scraped_metadata_has_no_quote_witness :
  let html :=
    og_tag "og:title" ++ lit "Cats &amp; dogs" ++ [quote] ++ lit ">" in
  get_video_metadata_from_webpage (fun _ => Page html) (lit "dQw4w9WgXcQ")
    = Returned (lit "Cats &amp; dogs", lit "No Description Available") /\
  ~ In quote (lit "Cats &amp; dogs").
Proof.
  intros html.
  assert (E : get_video_metadata_from_webpage (fun _ => Page html)
                (lit "dQw4w9WgXcQ")
              = Returned (lit "Cats &amp; dogs",
                          lit "No Description Available"))
    by reflexivity.
  split; [exact E|].
  destruct (scraped_metadata_has_no_quote (fun _ => Page html)
              (lit "dQw4w9WgXcQ")) as [H _].
  apply (H _ _ E).
Defined.

(** [extract_video_info] of [backend/wsgi_app.py]: a URL without eleven
    identifier characters in a row is refused with an error 400, whatever
    the page and the transcript provider hold; and a success body carries
    an identifier of eleven characters of [[A-Za-z0-9_-]] that stands in
    the URL, the scraped title and description of that identifier, and the
    texts of its transcript joined by single spaces. *)
Theorem extract_video_info_replies
    (fetch : str -> fetched)
    (get_transcript : str -> transcript_result) :
  (forall url : str,
     url <> [] -> search id_run_at url = None ->
     extract_video_info fetch get_transcript (Some url)
       = Returned (InfoError 400 (lit "Invalid YouTube URL"))) /\
  (forall video_url video_id title description transcript,
     extract_video_info fetch get_transcript video_url
       = Returned (Info video_id title description transcript) ->
     fullmatch_id video_id = true /\
     (exists url before after,
        video_url = Some url /\ url = before ++ video_id ++ after) /\
     Returned (title, description)
       = get_video_metadata_from_webpage fetch video_id /\
     exists texts,
       get_transcript video_id = Found texts /\
       transcript = Py.join (lit " ") texts).
Proof.
  split.
  - intros url Hne Hrun. unfold extract_video_info.
    assert (Hg : given (Some url) = true)
      by (destruct url; [congruence|reflexivity]).
    rewrite Hg.
    destruct (Extractor.extract_youtube_video_id url) as [g|] eqn:E;
      [|reflexivity].
    exfalso. apply (holds_id_run url g); [|exact Hrun].
    apply (regex_fallback_holds _ _ _ E).
  - intros video_url video_id title description transcript.
    unfold extract_video_info.
    destruct (given video_url); [|discriminate].
    destruct video_url as [url|]; cbn iota.
    2:{ destruct (Extractor.extract_youtube_video_id []) eqn:E;
          [vm_compute in E|]; discriminate. }
    destruct (Extractor.extract_youtube_video_id url) as [g|] eqn:E;
      [|discriminate].
    destruct (Py.truthy g); [|discriminate].
    destruct (get_video_metadata_from_webpage fetch g) as [[t d]|] eqn:Em;
      [|discriminate].
    destruct (get_transcript g) as [texts| | |] eqn:Et; try discriminate.
    intros H. injection H as <- <- <- <-.
    destruct (regex_fallback_holds _ _ _ E) as ((before & after & Eu) & Hv).
    split; [exact Hv|]. split; [exists url, before, after; auto|].
    split; [symmetry; exact Em|].
    exists texts. split; [exact Et|reflexivity].
Qed.

Lemma extract_video_info_replies_witness :
  extract_video_info (fun _ => OtherException) (fun _ => NoTranscriptFound)
    (Some (lit "https://example.org/"))
  = Returned (InfoError 400 (lit "Invalid YouTube URL")).
Proof.
  destruct (extract_video_info_replies (fun _ => OtherException)
              (fun _ => NoTranscriptFound)) as [H _].
  apply H; [discriminate|reflexivity].
Defined.

(** ** The formatted transcript of the chat handler of [api/wsgi_app.py] *)

Lemma stamped_pieces (items : list Api.segment) :
  (forall item, In item items -> Api.start item <> Timestamp.NotFinite) ->
  exists pieces,
    Api.stamped items = Returned pieces /\
    Forall2
      (fun item piece =>
         exists stamp,
           format_timestamp (Api.start item) = Returned stamp /\
           piece = stamp ++ lit " " ++ Api.spoken item)
      items pieces.
Proof.
  induction items as [|item items IH]; intros H.
  - exists []. split; [reflexivity|constructor].
  - destruct IH as (pieces & E & F);
      [intros x Hx; apply H; right; exact Hx|].
    assert (Hs : exists stamp,
               format_timestamp (Api.start item) = Returned stamp).
    { pose proof (H item (or_introl eq_refl)) as Hi.
      destruct (Api.start item); [eexists; reflexivity..|congruence]. }
    destruct Hs as (stamp & Es).
    exists ((stamp ++ lit " " ++ Api.spoken item) :: pieces).
    cbn [Api.stamped]. rewrite Es. cbn [bind]. rewrite E. cbn [bind].
    split; [reflexivity|].
    constructor; [exists stamp; split; [exact Es|reflexivity]|exact F].
Qed.

Lemma stamped_raises (items : list Api.segment) :
  (exists item, In item items /\ Api.start item = Timestamp.NotFinite) ->
  Api.stamped items = Raised.
Proof.
  induction items as [|item items IH]; intros (x & Hx & Ex);
    [destruct Hx|].
  cbn [Api.stamped]. destruct Hx as [->|Hx].
  - rewrite Ex. reflexivity.
  - destruct (format_timestamp (Api.start item)); [|reflexivity].
    cbn [bind]. rewrite IH by (exists x; split; assumption). reflexivity.
Qed.

(** When every segment has a start that is a number or is rejected by
    [float], the formatted transcript is the segments in order, each after
    its timestamp, joined by spaces; when one start is an infinity or a
    NaN, or the list is empty, it is the flat transcript of the request. *)
Theorem formatted_transcript_cases
    (video_transcript_list : list Api.segment)
    (video_transcript : option str) :
  (video_transcript_list <> [] ->
   (forall item, In item video_transcript_list ->
      Api.start item <> Timestamp.NotFinite) ->
   exists pieces,
     Forall2
       (fun item piece =>
          exists stamp,
            format_timestamp (Api.start item) = Returned stamp /\
            piece = stamp ++ lit " " ++ Api.spoken item)
       video_transcript_list pieces /\
     Api.formatted_transcript video_transcript_list video_transcript
       = Py.join (lit " ") pieces) /\
  (video_transcript_list = [] \/
   (exists item, In item video_transcript_list /\
                 Api.start item = Timestamp.NotFinite) ->
   Api.formatted_transcript video_transcript_list video_transcript
     = match video_transcript with Some t => t | None => [] end).
Proof.
  split.
  - intros Hne Hall.
    destruct (stamped_pieces _ Hall) as (pieces & E & F).
    exists pieces. split; [exact F|].
    unfold Api.formatted_transcript.
    destruct video_transcript_list as [|item items]; [congruence|].
    rewrite E.
    assert (Ht : Py.truthy (Py.join (lit " ") pieces) = true).
    { inversion F as [|? piece ? rest (stamp & _ & Ep) _]; subst.
      destruct rest; cbn [Py.join];
        destruct stamp; reflexivity. }
    rewrite Ht. reflexivity.
  - intros [->|Hbad]; [destruct video_transcript; reflexivity|].
    unfold Api.formatted_transcript.
    destruct video_transcript_list as [|item items];
      [destruct video_transcript; reflexivity|].
    rewrite (stamped_raises _ Hbad). destruct video_transcript; reflexivity.
Qed.

Lemma formatted_transcript_cases_witness :
  Api.formatted_transcript
    [ {| Api.start := Timestamp.Finite 75; Api.spoken := lit "Hello" |};
      {| Api.start := Timestamp.NotFinite; Api.spoken := lit "world" |} ]
    (Some (lit "Hello world"))
  = lit "Hello world".
Proof.
  destruct (formatted_transcript_cases
              [ {| Api.start := Timestamp.Finite 75;
                   Api.spoken := lit "Hello" |};
                {| Api.start := Timestamp.NotFinite;
                   Api.spoken := lit "world" |} ]
              (Some (lit "Hello world"))) as [_ H].
  apply H. right. eexists. split; [right; left; reflexivity|reflexivity].
Defined.
